(** * docker_healthcheck: the liveness probe and its entry point

    A shallow embedding of [src/docker_healthcheck.py].  The probe formats a
    URL from [config.HOST] and its [port] argument, calls [requests.get] once,
    prints one line and returns a boolean; the module's last statement turns
    an unhealthy verdict into [sys.exit(1)] when the file is run as a script.

    The network, [config] and the [requests] package are outside the file:
    they are collected in a [world] record that every program reads.  Calls
    to [requests.get] and to [print] are recorded in a trace of events, and
    Python exceptions are an explicit [Raised] result.

    The second part embeds [DockerContainerDaemon], the harness of
    [src/test/test_docker_healthcheck.py] that builds, starts, polls and
    removes the container under test.  The Docker engine, the sockets, the
    random source and the clock form an [engine]; a harness function is a
    state transformer over the outside, the class attributes and a record of
    the calls made. *)

From Stdlib Require Import ZArith String List Bool DecimalString Lia.
From Stdlib Require DecimalPos DecimalZ.
Import ListNotations.
Local Open Scope string_scope.
Local Open Scope Z_scope.

(** ** Python values and exceptions *)

Module Py.

(** The values that reach [check_health] as a port, as an exception argument
    or as an exit code. *)
Inductive value : Type :=
| VNone
| VBool (b : bool)
| VInt (n : Z)
| VStr (s : string).

(** [format(v, "")], which is what a replacement field [{v}] of an f-string
    yields: [str(v)] for these builtin types.  The text of an int is given
    whatever its length; the interpreter's limit on the number of digits is
    in [format_field]. *)
Definition str (v : value) : string :=
  match v with
  | VNone => "None"
  | VBool true => "True"
  | VBool false => "False"
  | VInt n => NilZero.string_of_int (Z.to_int n)
  | VStr s => s
  end.

(** An exception instance: the method resolution order of its class, the
    class itself first, and the arguments it was built with. *)
Record exception : Type := mkException {
  exc_mro : list string;
  exc_args : list value
}.

(** [isinstance(e, cls)]: [cls] occurs in the MRO of the class of [e].  An
    [except cls:] clause handles exactly these exceptions. *)
Definition isinstance (e : exception) (cls : string) : bool :=
  existsb (String.eqb cls) (exc_mro e).

Definition TypeError (msg : string) : exception :=
  mkException ["TypeError"; "Exception"; "BaseException"; "object"] [VStr msg].

Definition SystemExit (code : value) : exception :=
  mkException ["SystemExit"; "BaseException"; "object"] [code].

(** The outcome of evaluating something that may raise. *)
Inductive result (A : Type) : Type :=
| Returned (a : A)
| Raised (e : exception).
Arguments Returned {A} a.
Arguments Raised {A} e.

End Py.
Import Py.

(** ** The environment: [config], [requests] and the network *)

(** The part of a [requests.Response] a caller can look at. *)
Record response : Type := mkResponse {
  status_code : Z;
  headers : list (string * string);
  content : string
}.

(** The class named by the [except] clause of [check_health]. *)
Definition ConnectionError : string := "requests.exceptions.ConnectionError".

(** [config.HOST] and [config.PORT], and what [requests.get] does for each
    URL: it hands back a response or raises. *)
Record world : Type := mkWorld {
  HOST : string;
  PORT : value;
  get : string -> result response
}.

(** ** Programs: a trace of calls and a result *)

Inductive event : Type :=
| Get (url : string)        (* requests.get(url) was called *)
| Print (line : string).    (* print(line) was called *)

Definition prog (A : Type) : Type := world -> list event * result A.

Definition ret {A} (a : A) : prog A := fun _ => ([], Returned a).

Definition raise {A} (e : exception) : prog A := fun _ => ([], Raised e).

Definition bind {A B} (m : prog A) (k : A -> prog B) : prog B :=
  fun w =>
    match m w with
    | (t, Returned a) => let (t', r) := k a w in ((t ++ t')%list, r)
    | (t, Raised e) => (t, Raised e)
    end.

Notation "x <- m ;; k" := (bind m (fun x => k))
  (at level 61, m at next level, right associativity).
Notation "m ;;; k" := (bind m (fun _ => k))
  (at level 61, right associativity).

(** [try: body except cls: handler]. *)
Definition try_except {A} (body : prog A) (cls : string) (handler : prog A)
  : prog A :=
  fun w =>
    match body w with
    | (t, Returned a) => (t, Returned a)
    | (t, Raised e) =>
        if isinstance e cls
        then let (t', r) := handler w in ((t ++ t')%list, r)
        else (t, Raised e)
    end.

Definition lift {A} (r : result A) : prog A := fun _ => ([], r).

Definition config_HOST : prog string := fun w => ([], Returned (HOST w)).
Definition config_PORT : prog value := fun w => ([], Returned (PORT w)).

Definition requests_get (url : string) : prog response :=
  fun w => ([Get url], get w url).

Definition print (line : string) : prog unit :=
  fun _ => ([Print line], Returned tt).

(** [sys.exit(code)] raises [SystemExit(code)]. *)
Definition sys_exit (code : value) : prog unit := raise (SystemExit code).

Definition trace {A} (x : list event * result A) : list event := fst x.
Definition outcome {A} (x : list event * result A) : result A := snd x.

(** The URLs [requests.get] was called with, in order. *)
Fixpoint requests (t : list event) : list string :=
  match t with
  | [] => []
  | Get url :: t' => url :: requests t'
  | Print _ :: t' => requests t'
  end.

(** The lines printed, in order. *)
Fixpoint printed (t : list event) : list string :=
  match t with
  | [] => []
  | Get _ :: t' => printed t'
  | Print line :: t' => line :: printed t'
  end.

(** ** [docker_healthcheck.py] *)

(** The URL built on line 17. *)
Definition health_url (host : string) (port : value) : string :=
  "http://" ++ host ++ ":" ++ str port ++ "/health".

(** The body of [check_health], lines 16 to 28, with [port] bound. *)
Definition check_health (port : value) : prog bool :=
  try_except
    (host <- config_HOST ;;
     let url := health_url host port in
     response <- requests_get url ;;
     if status_code response =? 200
     then print "Healthcheck passed" ;;; ret true
     else print "Healthcheck failed" ;;; ret false)
    ConnectionError
    (print "Healthcheck failed" ;;; ret false).

(** Keyword arguments of a call of [def check_health(port=...)]: the only
    parameter is [port]; [slot] holds what is bound to it so far. *)
Fixpoint bind_keywords (slot : option value) (kwargs : list (string * value))
  : result (option value) :=
  match kwargs with
  | [] => Returned slot
  | (k, v) :: rest =>
      if String.eqb k "port" then
        match slot with
        | Some _ =>
            Raised (TypeError
              "check_health() got multiple values for argument 'port'")
        | None => bind_keywords (Some v) rest
        end
      else
        Raised (TypeError
          ("check_health() got an unexpected keyword argument '" ++ k ++ "'"))
  end.

(** Argument binding for the signature on line 6: positional arguments fill
    [port], keywords are matched against the parameter names, surplus
    positional arguments are refused, and a parameter left unbound takes its
    default. *)
Definition bind_arguments (default_port : value)
  (args : list value) (kwargs : list (string * value)) : result value :=
  match bind_keywords (hd_error args) kwargs with
  | Raised e => Raised e
  | Returned slot =>
      if (1 <? Z.of_nat (length args)) then
        Raised (TypeError
          ("check_health() takes from 0 to 1 positional arguments but "
             ++ str (VInt (Z.of_nat (length args))) ++ " were given"))
      else
        Returned (match slot with Some v => v | None => default_port end)
  end.

(** A call of the function object whose default for [port] is
    [default_port], with positional arguments [args] and keyword arguments
    [kwargs]. *)
Definition call_check_health (default_port : value)
  (args : list value) (kwargs : list (string * value)) : prog bool :=
  port <- lift (bind_arguments default_port args kwargs) ;;
  check_health port.

(** Executing the module with [__name__] set to [name].  The [def] statement
    evaluates the default [config.PORT] once; [A and B] evaluates [B] only
    when [A] is true. *)
Definition module_body (name : string) : prog unit :=
  default_port <- config_PORT ;;
  guard <- (if String.eqb name "__main__"
            then healthy <- call_check_health default_port [] [] ;;
                 ret (negb healthy)
            else ret false) ;;
  if guard then sys_exit (VInt 1) else ret tt.

(** The exit status of the interpreter after running a script: 0 when it runs
    to its end, the code of an uncaught [SystemExit], 1 for any other uncaught
    exception. *)
Definition exit_status (r : result unit) : Z :=
  match r with
  | Returned _ => 0
  | Raised e =>
      if isinstance e "SystemExit" then
        match exc_args e with
        | [] => 0
        | [VNone] => 0
        | [VInt n] => Z.land n 255
        | [VBool b] => if b then 1 else 0
        | _ => 1
        end
      else 1
  end.

(** [python docker_healthcheck.py]: the trace and the exit status. *)
Definition run_script (w : world) : list event * Z :=
  let (t, r) := module_body "__main__" w in (t, exit_status r).

(** ** Sample environments *)

Module Samples.

Definition ok_response : response :=
  mkResponse 200 [("Content-Type", "application/json")] "{'status': 'ok'}".

Definition ok_plain_response : response :=
  mkResponse 200 [("Content-Type", "text/plain"); ("Server", "gunicorn")] "OK".

Definition not_found_response : response :=
  mkResponse 404 [("Content-Type", "text/html")] "Not Found".

(** [requests.exceptions.ConnectionError], as raised when nothing listens. *)
Definition refused : exception :=
  mkException
    [ConnectionError; "requests.exceptions.RequestException"; "OSError";
     "Exception"; "BaseException"; "object"]
    [VStr "Connection refused"].

(** [requests.exceptions.InvalidURL], a [RequestException] and a
    [ValueError] but no [ConnectionError]. *)
Definition invalid_url : exception :=
  mkException
    ["requests.exceptions.InvalidURL"; "requests.exceptions.RequestException";
     "OSError"; "ValueError"; "Exception"; "BaseException"; "object"]
    [VStr "Failed to parse"].

(** A service on localhost:5000 that answers 200 on /health and 404 on any
    other path; a port that does not parse is an invalid URL, and nothing
    listens anywhere else. *)
Definition service_get (health : response) (url : string) : result response :=
  if String.eqb url "http://localhost:5000/health" then Returned health
  else if String.prefix "http://localhost:5000/" url
  then Returned not_found_response
  else if String.prefix "http://localhost:None/" url then Raised invalid_url
  else Raised refused.

Definition service : world :=
  mkWorld "localhost" (VInt 5000) (service_get ok_response).

(** The same service behind another server: other headers and body. *)
Definition service_plain : world :=
  mkWorld "localhost" (VInt 5000) (service_get ok_plain_response).

(** The configured port has no listener. *)
Definition service_down : world :=
  mkWorld "localhost" (VInt 8088) (service_get ok_response).

End Samples.
Import Samples.

(** ** Line 17 for every value of [port] *)

Definition ValueError (msg : string) : exception :=
  mkException ["ValueError"; "Exception"; "BaseException"; "object"]
    [VStr msg].

(** The default of [sys.get_int_max_str_digits()]: the interpreter refuses
    to write out an int of more decimal digits. *)
Definition int_max_str_digits : Z := 4300.

(** A replacement field [{v}] of an f-string as the interpreter evaluates
    it: [str v], except that an int of more than [int_max_str_digits] digits
    raises [ValueError]. *)
Definition format_field (v : value) : result string :=
  match v with
  | VInt n =>
      if 10 ^ int_max_str_digits <=? Z.abs n then
        Raised (ValueError
          ("Exceeds the limit (4300 digits) for integer string conversion; "
             ++ "use sys.set_int_max_str_digits() to increase the limit"))
      else Returned (str v)
  | _ => Returned (str v)
  end.

(** Lines 16 to 28 with line 17 evaluated by [format_field]: [check_health]
    for every value of [port], the ints that have no text included.  The
    [ValueError] is raised inside the [try] and is no [ConnectionError]. *)
Definition check_health_exact (port : value) : prog bool :=
  try_except
    (host <- config_HOST ;;
     text <- lift (format_field port) ;;
     let url := "http://" ++ host ++ ":" ++ text ++ "/health" in
     response <- requests_get url ;;
     if status_code response =? 200
     then print "Healthcheck passed" ;;; ret true
     else print "Healthcheck failed" ;;; ret false)
    ConnectionError
    (print "Healthcheck failed" ;;; ret false).

(** A call of the function object, as [call_check_health], with the body
    [check_health_exact]. *)
Definition call_check_health_exact (default_port : value)
  (args : list value) (kwargs : list (string * value)) : prog bool :=
  port <- lift (bind_arguments default_port args kwargs) ;;
  check_health_exact port.

(** ** [test/test_docker_healthcheck.py]: what the harness talks to *)

(** The objects of the Docker SDK the harness looks into, and the two
    exception classes it names. *)
Module Docker.

Record container : Type := mkContainer {
  name : string;
  status : string
}.

Record image : Type := mkImage {
  reference : string
}.

Record exec_result : Type := mkExecResult {
  exit_code : Z;
  output : string
}.

Definition APIError : string := "docker.errors.APIError".
Definition NotFound : string := "docker.errors.NotFound".

End Docker.

(** A [dict] with string keys and values, in insertion order, keys unique. *)
Definition dict : Type := list (string * string).

Fixpoint dict_get (k : string) (d : dict) : option string :=
  match d with
  | [] => None
  | (k', v) :: d' => if String.eqb k k' then Some v else dict_get k d'
  end.

(** [d[k] = v]: an existing key keeps its place, a new one goes last. *)
Fixpoint dict_set (k v : string) (d : dict) : dict :=
  match d with
  | [] => [(k, v)]
  | (k', v') :: d' =>
      if String.eqb k k' then (k, v) :: d' else (k', v') :: dict_set k v d'
  end.

(** [d | e]: a copy of [d] updated with the items of [e], in their order. *)
Definition dict_union (d e : dict) : dict :=
  fold_left (fun acc kv => dict_set (fst kv) (snd kv) acc) e d.

(** A message handed to the logger.  The text of an exception and the
    [repr] of a list are kept as they were passed. *)
Inductive piece : Type :=
| Lit (s : string)
| StrOf (e : exception)
| ReprOf (l : list string).

(** What the harness does to the outside, in order. *)
Inductive hevent : Type :=
| Sleep (seconds : Z)
| LogError (msg : list piece)
| LogDebug (msg : list piece)
| CallFunc
| FromEnv
| ContainersGet (container_name : string)
| ContainersRun (image container_name : string) (environment ports : dict)
| ContainersList (filter_name : string)
| ExecRun (container_name cmd : string) (environment : dict)
| ContainerStop (container_name : string)
| ContainerRemove (container_name : string)
| ImagesBuild (path tag dockerfile : string)
| ImagesGet (image_name : string)
| ImagesList (filter_reference : string)
| ImageRemove (image_reference : string)
| ConnectEx (host : string) (port : Z)
| RandBits (k : Z)
| Now.

(** The outside of the harness: the Docker engine behind [docker.from_env()],
    the sockets of localhost, the random source, the clock and [hashlib].
    [E] is its state; a call answers and moves it on.  An answer the harness
    only tests for truth is an [option], [None] standing for a false one. *)
Record engine (E : Type) : Type := mkEngine {
  from_env : E -> result unit * E;
  containers_get : string -> E -> result (option Docker.container) * E;
  containers_run :
    string -> string -> dict -> dict -> E
    -> result (option Docker.container) * E;
  containers_list : string -> E -> result (list Docker.container) * E;
  exec_run :
    Docker.container -> string -> dict -> E
    -> result (option Docker.exec_result) * E;
  container_stop : Docker.container -> E -> result unit * E;
  container_remove : Docker.container -> E -> result unit * E;
  images_build :
    string -> string -> string -> E -> result (option Docker.image) * E;
  images_get : string -> E -> result (option Docker.image) * E;
  images_list : string -> E -> result (list Docker.image) * E;
  image_remove : Docker.image -> E -> result unit * E;
  connect_ex : string -> Z -> E -> result Z * E;
  randbits : Z -> E -> Z * E;
  now : E -> string * E;
  sha256_hexdigest : string -> string
}.
Arguments from_env {E}.
Arguments containers_get {E}.
Arguments containers_run {E}.
Arguments containers_list {E}.
Arguments exec_run {E}.
Arguments container_stop {E}.
Arguments container_remove {E}.
Arguments images_build {E}.
Arguments images_get {E}.
Arguments images_list {E}.
Arguments image_remove {E}.
Arguments connect_ex {E}.
Arguments randbits {E}.
Arguments now {E}.
Arguments sha256_hexdigest {E}.

(** The state a harness function runs in: the outside, the four class
    attributes of [DockerContainerDaemon], shared by all its instances, and
    the record of what was done so far. *)
Record hstate (E : Type) : Type := mkState {
  outside : E;
  ports : list Z;
  image_names : list string;
  tags : list string;
  container_names : list string;
  log : list hevent
}.
Arguments mkState {E}.
Arguments outside {E}.
Arguments ports {E}.
Arguments image_names {E}.
Arguments tags {E}.
Arguments container_names {E}.
Arguments log {E}.

(** The attributes [__init__] sets, but for [_client]. *)
Record daemon : Type := mkDaemon {
  _dockerfile_path : string;
  _tag : string;
  _image_name : string;
  _port : string;
  _context : string;
  _container_name : string
}.

Definition hprog (E A : Type) : Type := hstate E -> result A * hstate E.

Definition OverflowError (msg : string) : exception :=
  mkException
    ["OverflowError"; "ArithmeticError"; "Exception"; "BaseException"; "object"]
    [VStr msg].

Section Harness.

Context {E : Type}.
Variable D : engine E.

Definition hret {A} (a : A) : hprog E A := fun s => (Returned a, s).

Definition hraise {A} (e : exception) : hprog E A := fun s => (Raised e, s).

Definition hbind {A B} (m : hprog E A) (k : A -> hprog E B) : hprog E B :=
  fun s =>
    match m s with
    | (Returned a, s') => k a s'
    | (Raised e, s') => (Raised e, s')
    end.

(** [try: body except cls as e: handler]. *)
Definition htry {A} (body : hprog E A) (cls : string)
  (handler : exception -> hprog E A) : hprog E A :=
  fun s =>
    match body s with
    | (Returned a, s') => (Returned a, s')
    | (Raised e, s') =>
        if isinstance e cls then handler e s' else (Raised e, s')
    end.

Definition record (ev : hevent) (s : hstate E) : hstate E :=
  mkState (outside s) (ports s) (image_names s) (tags s) (container_names s)
    (log s ++ [ev])%list.

Definition emit (ev : hevent) : hprog E unit :=
  fun s => (Returned tt, record ev s).

(** A call to the outside that may raise. *)
Definition ask {A} (ev : hevent) (f : E -> result A * E) : hprog E A :=
  fun s =>
    let (r, o) := f (outside s) in
    (r, mkState o (ports s) (image_names s) (tags s) (container_names s)
          (log s ++ [ev])%list).

(** A call to the outside that always answers. *)
Definition query {A} (ev : hevent) (f : E -> A * E) : hprog E A :=
  ask ev (fun o => let (a, o') := f o in (Returned a, o')).

Definition sleep (seconds : Z) : hprog E unit := emit (Sleep seconds).
Definition logger_error (msg : list piece) : hprog E unit :=
  emit (LogError msg).

End Harness.

Notation "x <~ m ;; k" := (hbind m (fun x => k))
  (at level 61, m at next level, right associativity).
Notation "m ~;; k" := (hbind m (fun _ => k))
  (at level 61, right associativity).


(** ** [test/test_docker_healthcheck.py]: [DockerContainerDaemon] *)

(** Truth value of a Python value, as [if], [while], [and], [or] and [not]
    take it. *)
Definition truthy (v : value) : bool :=
  match v with
  | VNone => false
  | VBool b => b
  | VInt n => negb (n =? 0)
  | VStr s => negb (String.eqb s "")
  end.

Section DockerContainerDaemon.

Context {E : Type}.
Variable D : engine E.

(** A loop that may not end is run on fuel; [None] says the fuel ran out
    before the loop was left. *)
Definition obind {A B} (m : hprog E (option A)) (k : A -> hprog E (option B))
  : hprog E (option B) :=
  o <~ m ;;
  match o with
  | Some a => k a
  | None => hret None
  end.

(** Lines 32 to 53. *)
Definition _docker_build (self : daemon) : hprog E bool :=
  let tag := _image_name self ++ ":" ++ _tag self in
  image <~ ask (ImagesBuild (_context self) tag (_dockerfile_path self))
             (images_build D (_context self) tag (_dockerfile_path self)) ;;
  match image with
  | Some _ => hret true
  | None => hret false
  end.

(** Lines 55 to 85. *)
Definition _docker_run (self : daemon) : hprog E bool :=
  let env := [("HOST", "0.0.0.0")] in
  let image := _image_name self ++ ":" ++ _tag self in
  let port_map := [(_port self, _port self)] in
  result <~ ask (ContainersRun image (_container_name self) env port_map)
              (containers_run D image (_container_name self) env port_map) ;;
  match result with
  | Some _ => hret true
  | None =>
      logger_error [Lit "Error running the container."] ~;;
      hret false
  end.

(** Lines 87 to 96. *)
Definition _docker_exec (self : daemon) (cmd : list string) (envs : dict)
  : hprog E bool :=
  container <~ ask (ContainersGet (_container_name self))
                 (containers_get D (_container_name self)) ;;
  match container with
  | Some c =>
      let line := String.concat " " cmd in
      result <~ ask (ExecRun (Docker.name c) line envs)
                  (exec_run D c line envs) ;;
      match result with
      | Some r =>
          if Docker.exit_code r =? 0 then hret true
          else
            logger_error
              [Lit "Error executing the command: Container ";
               Lit (Docker.name c); Lit ", Command "; ReprOf cmd] ~;;
            hret false
      | None =>
          logger_error
            [Lit "Error executing the command: Container ";
             Lit (Docker.name c); Lit ", Command "; ReprOf cmd] ~;;
          hret false
      end
  | None => hret false
  end.

(** The list comprehension of line 108: [n] calls of [secrets.randbits(32)]. *)
Fixpoint randbits_list (n : nat) : hprog E (list Z) :=
  match n with
  | O => hret []
  | S n' =>
      b <~ query (RandBits 32) (randbits D 32) ;;
      bs <~ randbits_list n' ;;
      hret (b :: bs)
  end.

(** Lines 99 to 111. *)
Definition get_hash : hprog E string :=
  bits <~ randbits_list 10 ;;
  stamp <~ query Now (now D) ;;
  let rands :=
    "DCD" ++ String.concat "-" (map (fun b => str (VInt b)) bits) ++ stamp in
  hret (substring 0 15 (sha256_hexdigest D rands)).

(** Lines 114 to 133.  The function ends without a [return] when nothing is
    found, so the result is [None] there. *)
Definition check_if_object_exists (name : string) : hprog E value :=
  htry
    (ask FromEnv (from_env D) ~;;
     container <~ ask (ContainersList name) (containers_list D name) ;;
     match container with
     | _ :: _ => hret (VBool true)
     | [] =>
         image <~ ask (ImagesList name) (images_list D name) ;;
         match image with
         | _ :: _ => hret (VBool true)
         | [] => hret VNone
         end
     end)
    Docker.APIError
    (fun _ => hret (VBool false)).

(** Lines 144 to 146.  A port outside 0..65535 makes [connect_ex] raise
    [OverflowError] before anything is sent; otherwise the socket answers
    with an error number, 0 for a connection made, or raises. *)
Definition is_port_in_use (port : Z) : hprog E bool :=
  if (0 <=? port) && (port <=? 65535) then
    r <~ ask (ConnectEx "localhost" port) (connect_ex D "localhost" port) ;;
    hret (r =? 0)
  else hraise (OverflowError "connect_ex(): port must be 0-65535.").

(** The [while] of lines 149 and 150, entered with [port]. *)
Fixpoint get_next_port_loop (fuel : nat) (port : Z) : hprog E (option Z) :=
  fun s =>
    (busy <~ (if existsb (Z.eqb port) (ports s) then hret true
              else is_port_in_use port) ;;
     if busy then
       match fuel with
       | O => hret None
       | S fuel' => get_next_port_loop fuel' (port + 1)
       end
     else hret (Some port)) s.

Definition append_port (port : Z) : hprog E unit :=
  fun s =>
    (Returned tt,
     mkState (outside s) (ports s ++ [port])%list (image_names s) (tags s)
       (container_names s) (log s)).

Definition append_image_name (x : string) : hprog E unit :=
  fun s =>
    (Returned tt,
     mkState (outside s) (ports s) (image_names s ++ [x])%list (tags s)
       (container_names s) (log s)).

Definition append_tag (x : string) : hprog E unit :=
  fun s =>
    (Returned tt,
     mkState (outside s) (ports s) (image_names s) (tags s ++ [x])%list
       (container_names s) (log s)).

Definition append_container_name (x : string) : hprog E unit :=
  fun s =>
    (Returned tt,
     mkState (outside s) (ports s) (image_names s) (tags s)
       (container_names s ++ [x])%list (log s)).

(** Fuel that the loop of [get_next_port] cannot use up: every turn either
    passes a port of the list or a port below 65536. *)
Definition port_fuel (listed : list Z) : nat :=
  (length listed + Z.to_nat 60537)%nat.

(** Lines 136 to 153. *)
Definition get_next_port : hprog E (option Z) :=
  fun s =>
    obind (get_next_port_loop (port_fuel (ports s)) 5000)
      (fun port => append_port port ~;; hret (Some port)) s.

(** The [while] of lines 164 to 168, entered with [image_name]. *)
Fixpoint get_next_image_name_loop (fuel : nat) (image_name : string)
  : hprog E (option string) :=
  fun s =>
    (taken <~ (if existsb (String.eqb image_name) (image_names s)
               then hret true
               else v <~ check_if_object_exists image_name ;;
                    hret (truthy v)) ;;
     if taken then
       match fuel with
       | O => hret None
       | S fuel' =>
           image_name' <~ get_hash ;;
           get_next_image_name_loop fuel' image_name'
       end
     else hret (Some image_name)) s.

(** Lines 156 to 171. *)
Definition get_next_image_name (fuel : nat) : hprog E (option string) :=
  image_name <~ get_hash ;;
  obind (get_next_image_name_loop fuel image_name)
    (fun image_name => append_image_name image_name ~;; hret (Some image_name)).

(** The [while] of lines 182 and 183, entered with [tag]. *)
Fixpoint get_next_tag_loop (fuel : nat) (tag : string)
  : hprog E (option string) :=
  fun s =>
    if existsb (String.eqb tag) (tags s) then
      match fuel with
      | O => (Returned None, s)
      | S fuel' => (tag' <~ get_hash ;; get_next_tag_loop fuel' tag') s
      end
    else (Returned (Some tag), s).

(** Lines 174 to 185. *)
Definition get_next_tag (fuel : nat) : hprog E (option string) :=
  tag <~ get_hash ;;
  obind (get_next_tag_loop fuel tag)
    (fun tag => append_tag tag ~;; hret (Some tag)).

(** The [while] of lines 196 and 197, entered with [container_name]. *)
Fixpoint get_next_container_name_loop (fuel : nat) (container_name : string)
  : hprog E (option string) :=
  fun s =>
    if existsb (String.eqb container_name) (container_names s) then
      match fuel with
      | O => (Returned None, s)
      | S fuel' =>
          (container_name' <~ get_hash ;;
           get_next_container_name_loop fuel' container_name') s
      end
    else (Returned (Some container_name), s).

(** Lines 188 to 199. *)
Definition get_next_container_name (fuel : nat) : hprog E (option string) :=
  container_name <~ get_hash ;;
  obind (get_next_container_name_loop fuel container_name)
    (fun container_name =>
       append_container_name container_name ~;; hret (Some container_name)).

(** The [while True] of lines 217 to 225, entered with [retry]; [func] is
    the wrapped function applied to the wrapper's arguments. *)
Fixpoint task_run_loop (func : E -> result value * E) (max_retries : Z)
  (fuel : nat) (retry : Z) : hprog E (option value) :=
  if max_retries <=? retry then hret (Some (VBool false))
  else
    match fuel with
    | O => hret None
    | S fuel' =>
        attempt <~ htry (v <~ ask CallFunc func ;; hret (Some v))
                     "Exception"
                     (fun e =>
                        logger_error
                          [Lit "Error running the function: "; StrOf e] ~;;
                        hret None) ;;
        match attempt with
        | Some v => hret (Some v)
        | None =>
            let retry := retry + 1 in
            sleep 1 ~;;
            task_run_loop func max_retries fuel' retry
        end
    end.

(** Lines 202 to 228: a call of the wrapper [task_run(func, max_retries)]. *)
Definition task_run (func : E -> result value * E) (max_retries : Z)
  : hprog E (option value) :=
  task_run_loop func max_retries (Z.to_nat max_retries) 0.

(** Lines 230 to 265; [fuel] is what each of the three name loops may use. *)
Definition __init__ (fuel : nat) (port : Z)
  (image_name tag context dockerfile_path : string) : hprog E (option daemon) :=
  ask FromEnv (from_env D) ~;;
  obind (if String.eqb tag "" then get_next_tag fuel else hret (Some tag))
    (fun tag =>
  obind (if String.eqb image_name ""
         then obind (get_next_image_name fuel)
                (fun x => hret (Some ("pytest_" ++ x)))
         else hret (Some image_name))
    (fun image_name =>
  obind (if port =? 0 then get_next_port else hret (Some port))
    (fun port =>
  obind (get_next_container_name fuel)
    (fun container_name =>
  hret (Some (mkDaemon dockerfile_path tag image_name (str (VInt port))
                context ("pytest_" ++ container_name))))))).

(** Line 274. *)
Definition build (self : daemon) : hprog E bool := _docker_build self.

(** The [for] of lines 297 to 304 over the remaining values of [i]. *)
Fixpoint is_running_from (self : daemon) (attempts : list Z) : hprog E bool :=
  match attempts with
  | [] => hret false
  | i :: rest =>
      up <~ htry
              (container <~ ask (ContainersGet (_container_name self))
                              (containers_get D (_container_name self)) ;;
               match container with
               | Some c => hret (String.eqb (Docker.status c) "running")
               | None => hret false
               end)
              Docker.NotFound
              (fun _ =>
                 logger_error
                   [Lit ("Attempt #" ++ str (VInt i) ++ " failed.")] ~;;
                 hret false) ;;
      if up then hret true
      else sleep 1 ~;; is_running_from self rest
  end.

(** Lines 290 to 305; [range(1, 6)]. *)
Definition is_running (self : daemon) : hprog E bool :=
  is_running_from self [1; 2; 3; 4; 5].

(** Lines 276 to 288. *)
Definition start (self : daemon) : hprog E bool :=
  running <~ is_running self ;;
  if negb running then
    container <~ _docker_run self ;;
    if container then is_running self else hret false
  else hret false.

(** Line 314. *)
Definition get_port (self : daemon) : string := _port self.

(** Lines 328 to 334: the environment [run] hands on. *)
Definition run_env (env : option dict) : dict :=
  let defaults := [("HOST", "0.0.0.0")] in
  match env with
  | Some (kv :: more) => dict_union defaults (kv :: more)
  | Some [] => defaults
  | None => defaults
  end.

(** Lines 316 to 339. *)
Definition run (self : daemon) (cmd : list string) (env : option dict)
  : hprog E bool :=
  let env := run_env env in
  htry (_docker_exec self cmd env)
    "Exception"
    (fun e =>
       logger_error [Lit "Error running command: "; StrOf e] ~;;
       hret false).

(** Lines 341 to 356. *)
Definition terminate (self : daemon) : hprog E bool :=
  htry
    (container <~ ask (ContainersGet (_container_name self))
                    (containers_get D (_container_name self)) ;;
     match container with
     | Some c =>
         ask (ContainerStop (Docker.name c)) (container_stop D c) ~;;
         hret true
     | None => hret false
     end)
    Docker.NotFound
    (fun _ => hret false).


End DockerContainerDaemon.


(** ** Reading a record of events *)

Definition is_sleep (ev : hevent) : bool :=
  match ev with Sleep _ => true | _ => false end.

Definition is_call_func (ev : hevent) : bool :=
  match ev with CallFunc => true | _ => false end.

Definition is_containers_get (ev : hevent) : bool :=
  match ev with ContainersGet _ => true | _ => false end.

Definition is_containers_run (ev : hevent) : bool :=
  match ev with ContainersRun _ _ _ _ => true | _ => false end.

Definition is_container_stop (ev : hevent) : bool :=
  match ev with ContainerStop _ => true | _ => false end.

Definition is_container_remove (ev : hevent) : bool :=
  match ev with ContainerRemove _ => true | _ => false end.

Definition is_image_remove (ev : hevent) : bool :=
  match ev with ImageRemove _ => true | _ => false end.

Definition is_connect_ex (ev : hevent) : bool :=
  match ev with ConnectEx _ _ => true | _ => false end.

Definition is_log_error (ev : hevent) : bool :=
  match ev with LogError _ => true | _ => false end.

(** How many events of a kind a record holds. *)
Definition count (kind : hevent -> bool) (l : list hevent) : nat :=
  length (filter kind l).

(** [n] calls of [func] in a row from the outside [o], each of which raises
    an instance of [Exception]: the exceptions, and the outside they leave. *)
Fixpoint failures {E : Type} (func : E -> result value * E) (n : nat) (o : E)
  : option (list exception * E) :=
  match n with
  | O => Some ([], o)
  | S n' =>
      match func o with
      | (Raised e, o1) =>
          if isinstance e "Exception" then
            match failures func n' o1 with
            | Some (es, o') => Some (e :: es, o')
            | None => None
            end
          else None
      | (Returned _, _) => None
      end
  end.

(** What one failed attempt of [task_run] leaves in the record. *)
Definition failed_attempt (e : exception) : list hevent :=
  [CallFunc; LogError [Lit "Error running the function: "; StrOf e]; Sleep 1].

(** The state [s] with another outside and more events recorded. *)
Definition moved {E : Type} (s : hstate E) (o : E) (new : list hevent)
  : hstate E :=
  mkState o (ports s) (image_names s) (tags s) (container_names s)
    (log s ++ new)%list.

(** The class attributes are the same in both states. *)
Definition same_attributes {E : Type} (s s' : hstate E) : Prop :=
  ports s' = ports s /\ image_names s' = image_names s /\
  tags s' = tags s /\ container_names s' = container_names s.


(** ** Sample outsides for the harness *)

Module Lab.

(** The state of a sample outside: how many calls it has answered. *)
Definition clock : Type := nat.

Definition not_found : exception :=
  mkException
    [Docker.NotFound; Docker.APIError; "requests.exceptions.HTTPError";
     "requests.exceptions.RequestException"; "OSError"; "Exception";
     "BaseException"; "object"]
    [VStr "404 Client Error: Not Found"].

Definition server_error : exception :=
  mkException
    [Docker.APIError; "requests.exceptions.HTTPError";
     "requests.exceptions.RequestException"; "OSError"; "Exception";
     "BaseException"; "object"]
    [VStr "500 Server Error: Internal Server Error"].

Definition keyboard_interrupt : exception :=
  mkException ["KeyboardInterrupt"; "BaseException"; "object"] [].

(** Empty class attributes and an empty record. *)
Definition initial {E : Type} (o : E) : hstate E := mkState o [] [] [] [] [].

(** A function that fails on its first two calls and then returns "up". *)
Definition flaky (n : clock) : result value * clock :=
  if (n <? 2)%nat then (Raised server_error, S n)
  else (Returned (VStr "up"), S n).

(** A function that is interrupted on its second call. *)
Definition interrupted (n : clock) : result value * clock :=
  if (n <? 1)%nat then (Raised server_error, S n)
  else (Raised keyboard_interrupt, S n).

(** A sample outside on a clock: every call takes one tick.
    [containers.get] answers by the time of the call, [exec_run] ends with
    [exit], [images.get] answers [lookup], and [connect_ex] finds a listener
    on the ports of [listening].  The digest is a stand-in that hands its
    input back. *)
Definition bench (gets : clock -> result (option Docker.container))
  (exit : Z) (lookup : result (option Docker.image)) (listening : list Z)
  : engine clock :=
  mkEngine clock
    (fun n => (Returned tt, S n))
    (fun _ n => (gets n, S n))
    (fun _ name _ _ n =>
       (Returned (Some (Docker.mkContainer name "created")), S n))
    (fun _ n => (Returned [], S n))
    (fun _ _ _ n => (Returned (Some (Docker.mkExecResult exit "")), S n))
    (fun _ n => (Returned tt, S n))
    (fun _ n => (Returned tt, S n))
    (fun _ tag _ n => (Returned (Some (Docker.mkImage tag)), S n))
    (fun _ n => (lookup, S n))
    (fun _ n => (Returned [], S n))
    (fun _ n => (Returned tt, S n))
    (fun _ port n =>
       (Returned (if existsb (Z.eqb port) listening then 0 else 111), S n))
    (fun _ n => (Z.of_nat n, S n))
    (fun n => ("2024-05-01 12:00:00.000000", S n))
    (fun text => text).

(** The container is never there. *)
Definition absent (_ : clock) : result (option Docker.container) :=
  Raised not_found.

(** The container is there and running. *)
Definition running (_ : clock) : result (option Docker.container) :=
  Returned (Some (Docker.mkContainer "pytest_web" "running")).

(** The container shows up, running, from the seventh call on. *)
Definition late (n : clock) : result (option Docker.container) :=
  if (n <? 6)%nat then Raised not_found
  else Returned (Some (Docker.mkContainer "pytest_web" "running")).

(** A sample outside where port 5000 is taken and the container comes up
    late. *)
Definition sample : engine clock :=
  bench late 0 (Raised not_found) [5000].

(** The first two daemons built on [sample] from nothing. *)
Definition first_daemon : daemon :=
  mkDaemon "./Dockerfile" "DCD1-2-3-4-5-6-" "pytest_DCD12-13-14-15-" "5001"
    "." "pytest_DCD28-29-30-31-".

Definition second_daemon : daemon :=
  mkDaemon "./Dockerfile" "DCD40-41-42-43-" "pytest_DCD51-52-53-54-" "5002"
    "." "pytest_DCD67-68-69-70-".

Definition web : daemon :=
  mkDaemon "./Dockerfile" "v1" "pytest_image" "5000" "." "pytest_web".

(** A callable that changes a class attribute: it allocates a port. *)
Definition allocate (D : engine clock) : hprog clock value :=
  fun s =>
    match get_next_port D s with
    | (Returned (Some port), s') => (Returned (VInt port), s')
    | (Returned None, s') => (Returned VNone, s')
    | (Raised e, s') => (Raised e, s')
    end.

End Lab.


(** How far the loop of [get_next_port] can still go from [port]: the ports
    of the list that lie ahead, and the ports up to 65535. *)
Definition ports_ahead (port : Z) (listed : list Z) : nat :=
  (length (filter (fun q => (port <=? q)%Z) listed)
   + Z.to_nat (65536 - port)%Z)%nat.


(** [DockerContainerDaemon()], every parameter at its default, as the
    fixture [docker_session] builds it on line 376. *)
Definition DockerContainerDaemon {E : Type} (D : engine E) (fuel : nat)
  : hprog E (option daemon) :=
  __init__ D fuel 0 "" "" "." "./Dockerfile".


(** ** The wrapper of [task_run] around any callable, and polls in vain *)

Section Wrapper.

Context {E : Type}.

(** The [while True] of lines 217 to 225, entered with [retry].  [call] is
    the wrapped function applied to the wrapper's arguments: a harness
    program like any other, free to change the class attributes, to log and
    to sleep. *)
Fixpoint wrapper_loop (call : hprog E value) (max_retries : Z)
  (fuel : nat) (retry : Z) : hprog E (option value) :=
  if max_retries <=? retry then hret (Some (VBool false))
  else
    match fuel with
    | O => hret None
    | S fuel' =>
        attempt <~ htry (emit CallFunc ~;; v <~ call ;; hret (Some v))
                     "Exception"
                     (fun e =>
                        logger_error
                          [Lit "Error running the function: "; StrOf e] ~;;
                        hret None) ;;
        match attempt with
        | Some v => hret (Some v)
        | None =>
            let retry := retry + 1 in
            sleep 1 ~;;
            wrapper_loop call max_retries fuel' retry
        end
    end.

(** Lines 215 to 226: a call of the [wrapper] that [task_run] returns. *)
Definition wrapper (call : hprog E value) (max_retries : Z)
  : hprog E (option value) :=
  wrapper_loop call max_retries (Z.to_nat max_retries) 0.

(** A function of the outside alone, as a callable. *)
Definition of_outside (func : E -> result value * E) : hprog E value :=
  fun s =>
    let (r, o) := func (outside s) in
    (r, mkState o (ports s) (image_names s) (tags s) (container_names s)
          (log s)).

(** [n] attempts of the wrapper in a row from the state [s], each of which
    raises an instance of [Exception] and is followed by the error log and
    the sleep of one second: the state they leave. *)
Fixpoint failed_attempts (call : hprog E value) (n : nat) (s : hstate E)
  : option (hstate E) :=
  match n with
  | O => Some s
  | S n' =>
      match call (record CallFunc s) with
      | (Raised e, s1) =>
          if isinstance e "Exception" then
            failed_attempts call n'
              (record (Sleep 1)
                 (record
                    (LogError [Lit "Error running the function: "; StrOf e])
                    s1))
          else None
      | (Returned _, _) => None
      end
  end.

Variable D : engine E.
Variable self : daemon.

(** One poll of [is_running] for each attempt number of [attempts], from
    the outside [o], none of which ends the loop: the container is found but
    not running, or it is not found.  The events, with the sleep of one
    second after each poll, and the outside they leave. *)
Fixpoint waits (attempts : list Z) (o : E) : option (list hevent * E) :=
  match attempts with
  | [] => Some ([], o)
  | i :: rest =>
      match containers_get D (_container_name self) o with
      | (Returned found, o1) =>
          if match found with
             | Some c => String.eqb (Docker.status c) "running"
             | None => false
             end
          then None
          else
            match waits rest o1 with
            | Some (evs, o') =>
                Some (ContainersGet (_container_name self) :: Sleep 1 :: evs,
                      o')
            | None => None
            end
      | (Raised e, o1) =>
          if isinstance e Docker.NotFound then
            match waits rest o1 with
            | Some (evs, o') =>
                Some (ContainersGet (_container_name self)
                        :: LogError
                             [Lit ("Attempt #" ++ str (VInt i) ++ " failed.")]
                        :: Sleep 1 :: evs,
                      o')
            | None => None
            end
          else None
      end
  end.

End Wrapper.

(** ** The three ways a run of [check_health] can go *)

Section Runs.

Variable w : world.
Variable port : value.

Lemma check_health_on_response (r : response) :
  get w (health_url (HOST w) port) = Returned r ->
  check_health port w =
    ([Get (health_url (HOST w) port);
      Print (if status_code r =? 200
             then "Healthcheck passed" else "Healthcheck failed")],
     Returned (status_code r =? 200)).
Proof.
  intros Hget.
  unfold check_health, try_except, bind, config_HOST, requests_get; simpl.
  fold (health_url (HOST w) port); rewrite Hget.
  destruct (status_code r =? 200); reflexivity.
Qed.

Lemma check_health_on_caught (e : exception) :
  get w (health_url (HOST w) port) = Raised e ->
  isinstance e ConnectionError = true ->
  check_health port w =
    ([Get (health_url (HOST w) port); Print "Healthcheck failed"],
     Returned false).
Proof.
  intros Hget Hcls.
  unfold check_health, try_except, bind, config_HOST, requests_get; simpl.
  fold (health_url (HOST w) port); rewrite Hget, Hcls.
  reflexivity.
Qed.

Lemma check_health_on_uncaught (e : exception) :
  get w (health_url (HOST w) port) = Raised e ->
  isinstance e ConnectionError = false ->
  check_health port w = ([Get (health_url (HOST w) port)], Raised e).
Proof.
  intros Hget Hcls.
  unfold check_health, try_except, bind, config_HOST, requests_get; simpl.
  fold (health_url (HOST w) port); rewrite Hget, Hcls.
  reflexivity.
Qed.

(** Every run is one of the three. *)
Lemma check_health_cases :
  (exists r, get w (health_url (HOST w) port) = Returned r /\
     check_health port w =
       ([Get (health_url (HOST w) port);
         Print (if status_code r =? 200
                then "Healthcheck passed" else "Healthcheck failed")],
        Returned (status_code r =? 200)))
  \/ (exists e, get w (health_url (HOST w) port) = Raised e /\
        isinstance e ConnectionError = true /\
        check_health port w =
          ([Get (health_url (HOST w) port); Print "Healthcheck failed"],
           Returned false))
  \/ (exists e, get w (health_url (HOST w) port) = Raised e /\
        isinstance e ConnectionError = false /\
        check_health port w = ([Get (health_url (HOST w) port)], Raised e)).
Proof.
  destruct (get w (health_url (HOST w) port)) as [r | e] eqn:Hget.
  - left. exists r. split; [reflexivity |].
    now apply check_health_on_response.
  - destruct (isinstance e ConnectionError) eqn:Hcls.
    + right; left. exists e. repeat split; trivial.
      now apply (check_health_on_caught e).
    + right; right. exists e. repeat split; trivial.
      now apply (check_health_on_uncaught e).
Qed.

End Runs.



Lemma call_default (w : world) (d : value) :
  call_check_health d [] [] w = check_health d w.
Proof.
  unfold call_check_health, bind, lift; simpl.
  destruct (check_health d w); reflexivity.
Qed.

(** The script's trace and status in terms of the probe's run. *)
Lemma module_body_main (w : world) :
  module_body "__main__" w =
    match check_health (PORT w) w with
    | (t, Returned true) => (t, Returned tt)
    | (t, Returned false) => (t, Raised (SystemExit (VInt 1)))
    | (t, Raised e) => (t, Raised e)
    end.
Proof.
  unfold module_body, bind, config_PORT; simpl.
  rewrite call_default.
  destruct (check_health (PORT w) w) as [t [[|] | e]]; simpl;
    rewrite ?app_nil_r; reflexivity.
Qed.

Example url_of_int_port :
  health_url "localhost" (VInt 5000) = "http://localhost:5000/health".
Proof. reflexivity. Qed.

Example url_of_str_port :
  health_url "localhost" (VStr "8088") = "http://localhost:8088/health".
Proof. reflexivity. Qed.

Example url_of_large_port :
  health_url "0.0.0.0" (VInt 70000) = "http://0.0.0.0:70000/health".
Proof. reflexivity. Qed.

Example url_of_negative_port :
  health_url "0.0.0.0" (VInt (-1)) = "http://0.0.0.0:-1/health".
Proof. reflexivity. Qed.

Example run_service_up :
  run_script service =
    ([Get "http://localhost:5000/health"; Print "Healthcheck passed"], 0).
Proof. reflexivity. Qed.

Example run_service_down :
  run_script service_down =
    ([Get "http://localhost:8088/health"; Print "Healthcheck failed"], 1).
Proof. reflexivity. Qed.

(** ** The verdict *)

(** C1. When [requests.get] hands back a response, [check_health] returns
    [True] exactly when the status code is 200, and [False] for every other
    status code. *)
Theorem check_health_true_iff_200 (w : world) (port : value) (r : response) :
  get w (health_url (HOST w) port) = Returned r ->
  (outcome (check_health port w) = Returned true <-> status_code r = 200) /\
  (status_code r <> 200 -> outcome (check_health port w) = Returned false).
Proof.
  intros Hget.
  rewrite (check_health_on_response w port r Hget); unfold outcome; simpl.
  destruct (Z.eqb_spec (status_code r) 200) as [Heq | Hne]; split.
  - split; trivial.
  - intros Hne; contradiction.
  - split; [discriminate | contradiction].
  - reflexivity.
Qed.

Lemma check_health_true_iff_200_witness :
  get service (health_url (HOST service) (VInt 5000)) = Returned ok_response /\
  ((outcome (check_health (VInt 5000) service) = Returned true
    <-> status_code ok_response = 200) /\
   (status_code ok_response <> 200 ->
    outcome (check_health (VInt 5000) service) = Returned false)).
Proof.
  split; [reflexivity |].
  apply (check_health_true_iff_200 service (VInt 5000) ok_response).
  reflexivity.
Defined.

(** C2. When [requests.get] raises a [requests.exceptions.ConnectionError]
    (an instance of the class or of a subclass), [check_health] handles it
    and returns [False]: the call returns and nothing is raised. *)
Theorem connection_error_gives_false
  (w : world) (port : value) (e : exception) :
  get w (health_url (HOST w) port) = Raised e ->
  isinstance e ConnectionError = true ->
  outcome (check_health port w) = Returned false.
Proof.
  intros Hget Hcls.
  now rewrite (check_health_on_caught w port e Hget Hcls).
Qed.

Lemma connection_error_gives_false_witness :
  get service (health_url (HOST service) (VStr "8088")) = Raised refused /\
  isinstance refused ConnectionError = true /\
  outcome (check_health (VStr "8088") service) = Returned false.
Proof.
  split; [reflexivity | split; [reflexivity |]].
  apply (connection_error_gives_false service (VStr "8088") refused);
    reflexivity.
Defined.

(** C4. When [requests.get] raises an exception that is not an instance of
    [requests.exceptions.ConnectionError], [check_health] does not handle it:
    the same exception reaches the caller, and nothing is printed. *)
Theorem other_exception_propagates
  (w : world) (port : value) (e : exception) :
  get w (health_url (HOST w) port) = Raised e ->
  isinstance e ConnectionError = false ->
  outcome (check_health port w) = Raised e /\
  printed (trace (check_health port w)) = [].
Proof.
  intros Hget Hcls.
  now rewrite (check_health_on_uncaught w port e Hget Hcls).
Qed.

Lemma other_exception_propagates_witness :
  get service (health_url (HOST service) VNone) = Raised invalid_url /\
  isinstance invalid_url ConnectionError = false /\
  outcome (check_health VNone service) = Raised invalid_url /\
  printed (trace (check_health VNone service)) = [].
Proof.
  split; [reflexivity | split; [reflexivity |]].
  apply (other_exception_propagates service VNone invalid_url); reflexivity.
Defined.

(** C6. A call of [check_health] that returns has printed exactly one line:
    "Healthcheck passed" when it returns [True] and "Healthcheck failed" when
    it returns [False], the handled connection failure included. *)
Theorem one_line_per_return (w : world) (port : value) (b : bool) :
  outcome (check_health port w) = Returned b ->
  printed (trace (check_health port w)) =
    [if b then "Healthcheck passed" else "Healthcheck failed"].
Proof.
  destruct (check_health_cases w port)
    as [(r & _ & Hrun) | [(e & _ & _ & Hrun) | (e & _ & _ & Hrun)]];
    rewrite Hrun; unfold outcome, trace; simpl; intros Hret.
  - injection Hret as <-. reflexivity.
  - injection Hret as <-. reflexivity.
  - discriminate.
Qed.

Lemma one_line_per_return_witness :
  outcome (check_health (VInt 8088) service) = Returned false /\
  printed (trace (check_health (VInt 8088) service)) = ["Healthcheck failed"].
Proof.
  split; [reflexivity |].
  apply (one_line_per_return service (VInt 8088) false).
  reflexivity.
Defined.

(** C10. Two responses with the same status code get the same verdict and
    the same printed line, whatever their headers and bodies (and whatever
    host and port they were fetched from). *)
Theorem verdict_depends_on_status_only
  (w1 w2 : world) (port1 port2 : value) (r1 r2 : response) :
  get w1 (health_url (HOST w1) port1) = Returned r1 ->
  get w2 (health_url (HOST w2) port2) = Returned r2 ->
  status_code r1 = status_code r2 ->
  outcome (check_health port1 w1) = outcome (check_health port2 w2) /\
  printed (trace (check_health port1 w1)) =
    printed (trace (check_health port2 w2)).
Proof.
  intros Hget1 Hget2 Hsame.
  rewrite (check_health_on_response w1 port1 r1 Hget1).
  rewrite (check_health_on_response w2 port2 r2 Hget2).
  unfold outcome, trace; simpl.
  rewrite Hsame. split; reflexivity.
Qed.

Lemma verdict_depends_on_status_only_witness :
  get service (health_url (HOST service) (VInt 5000)) = Returned ok_response /\
  get service_plain (health_url (HOST service_plain) (VStr "5000"))
    = Returned ok_plain_response /\
  status_code ok_response = status_code ok_plain_response /\
  ok_response <> ok_plain_response /\
  outcome (check_health (VInt 5000) service)
    = outcome (check_health (VStr "5000") service_plain) /\
  printed (trace (check_health (VInt 5000) service))
    = printed (trace (check_health (VStr "5000") service_plain)).
Proof.
  split; [reflexivity | split; [reflexivity | split; [reflexivity |]]].
  split; [discriminate |].
  apply (verdict_depends_on_status_only
           service service_plain (VInt 5000) (VStr "5000")
           ok_response ok_plain_response); reflexivity.
Defined.

(** ** The call: arguments, URL and the single request *)



(** C7, on the code.  The call of [test_check_invalid_path_endpoint], a port
    and the path "/invalid_endpoint", does not return: binding the second
    argument raises [TypeError] in every environment, before any request. *)
Theorem check_health_with_path_raises (w : world) (d : value) :
  call_check_health d [VInt 5000; VStr "/invalid_endpoint"] [] w
  = ([], Raised (TypeError
       ("check_health() takes from 0 to 1 positional arguments "
          ++ "but 2 were given"))) /\
  call_check_health d [VStr "5000"; VStr "/invalid_endpoint"] [] w
  = ([], Raised (TypeError
       ("check_health() takes from 0 to 1 positional arguments "
          ++ "but 2 were given"))) /\
  call_check_health d []
    [("port", VInt 5000); ("path", VStr "/invalid_endpoint")] w
  = ([], Raised (TypeError
       "check_health() got an unexpected keyword argument 'path'")).
Proof.
  repeat split.
Qed.

(** Where the port has a text, [check_health_exact] is [check_health]. *)
Lemma format_field_str (port : value) (text : string) :
  format_field port = Returned text -> text = str port.
Proof.
  unfold format_field.
  destruct port as [| b | n | t];
    try (intros H; now injection H as <-).
  destruct (10 ^ int_max_str_digits <=? Z.abs n); intros H;
    [discriminate H | now injection H as <-].
Qed.

Lemma check_health_exact_agrees (w : world) (port : value) (text : string) :
  format_field port = Returned text ->
  check_health_exact port w = check_health port w.
Proof.
  intros Hfmt. pose proof (format_field_str port text Hfmt) as ->.
  unfold check_health_exact, check_health, health_url.
  unfold try_except, bind, lift, config_HOST, requests_get.
  rewrite Hfmt. cbn [fst snd app].
  destruct (get w ("http://" ++ HOST w ++ ":" ++ str port ++ "/health"))
    as [r | e]; [destruct (status_code r =? 200) | ]; reflexivity.
Qed.

(** C8, as the code has it.  [check_health] itself refuses no value of
    [port]: a string, [None], a bool, or an int of at most 4300 digits, in
    the range of ports or not, is bound as it is, its text is put into the
    URL, and the first thing the call does is [requests.get] on that URL.
    What [requests.get] does with the URL is not [check_health]'s doing. *)
Theorem port_with_text_is_requested (w : world) (d port : value) :
  match port with
  | VInt n => Z.abs n < 10 ^ int_max_str_digits
  | _ => True
  end ->
  bind_arguments d [port] [] = Returned port /\
  format_field port = Returned (str port) /\
  exists rest,
    trace (call_check_health_exact d [port] [] w) =
      Get ("http://" ++ HOST w ++ ":" ++ str port ++ "/health") :: rest.
Proof.
  intros Hdigits.
  assert (Hfmt : format_field port = Returned (str port)).
  { destruct port as [| b | n | t]; try reflexivity.
    unfold format_field.
    destruct (Z.leb_spec (10 ^ int_max_str_digits) (Z.abs n)) as [Hle | _];
      [lia | reflexivity]. }
  split; [reflexivity |]. split; [exact Hfmt |].
  assert (Hcall : call_check_health_exact d [port] [] w
                  = check_health_exact port w).
  { unfold call_check_health_exact, bind, lift; simpl.
    destruct (check_health_exact port w); reflexivity. }
  rewrite Hcall, (check_health_exact_agrees w port (str port) Hfmt).
  destruct (check_health_cases w port)
    as [(r & _ & Hrun) | [(e & _ & _ & Hrun) | (e & _ & _ & Hrun)]];
    rewrite Hrun; unfold trace; simpl; eexists; reflexivity.
Qed.

Lemma port_with_text_is_requested_witness :
  Z.abs 70000 < 10 ^ int_max_str_digits /\
  (bind_arguments (VInt 5000) [VInt 70000] [] = Returned (VInt 70000) /\
   format_field (VInt 70000) = Returned (str (VInt 70000)) /\
   exists rest,
     trace (call_check_health_exact (VInt 5000) [VInt 70000] [] service) =
       Get ("http://" ++ HOST service ++ ":" ++ str (VInt 70000) ++ "/health")
         :: rest).
Proof.
  assert (Hdigits : Z.abs 70000 < 10 ^ int_max_str_digits).
  { vm_compute. reflexivity. }
  split; [exact Hdigits |].
  exact (port_with_text_is_requested service (VInt 5000) (VInt 70000) Hdigits).
Defined.

(** C8, as stated, fails: an int of 4301 digits passed as [port] makes
    line 17 raise [ValueError], inside [check_health] and before
    [requests.get] is called; nothing is printed either. *)
Lemma port_beyond_digit_limit_raises :
  call_check_health_exact (PORT service) [VInt (10 ^ 4300)] [] service
  = ([], Raised (ValueError
       ("Exceeds the limit (4300 digits) for integer string conversion; "
          ++ "use sys.set_int_max_str_digits() to increase the limit"))) /\
  requests (trace (call_check_health_exact (PORT service)
                     [VInt (10 ^ 4300)] [] service)) = [] /\
  isinstance (ValueError
       ("Exceeds the limit (4300 digits) for integer string conversion; "
          ++ "use sys.set_int_max_str_digits() to increase the limit"))
    ConnectionError = false.
Proof.
  split; [vm_compute; reflexivity |].
  split; [vm_compute; reflexivity | reflexivity].
Qed.

(** ** The module *)

(** C5. Run as a script, the process exits with status 0 when the call
    [check_health()] returns [True] and with status 1 when it returns
    [False]. *)
Theorem script_exit_status (w : world) (healthy : bool) :
  outcome (call_check_health (PORT w) [] [] w) = Returned healthy ->
  snd (run_script w) = if healthy then 0 else 1.
Proof.
  rewrite call_default. unfold run_script. rewrite module_body_main.
  destruct (check_health (PORT w) w) as [t [[|] | e]];
    unfold outcome; simpl; intros Hret;
    try discriminate; injection Hret as <-; reflexivity.
Qed.

Lemma script_exit_status_witness :
  outcome (call_check_health (PORT service_down) [] [] service_down)
    = Returned false /\
  snd (run_script service_down) = 1.
Proof.
  split; [reflexivity |].
  apply (script_exit_status service_down false).
  reflexivity.
Defined.

(** C9. Executed under any name other than "__main__", that is, imported,
    the module calls neither [check_health] nor [sys.exit]: no request, no
    printed line, and the module body runs to its end. *)
Theorem import_runs_no_check (w : world) (name : string) :
  name <> "__main__" ->
  module_body name w = ([], Returned tt).
Proof.
  intros Hname.
  unfold module_body, bind, config_PORT; simpl.
  destruct (String.eqb_spec name "__main__") as [Heq | _];
    [contradiction | reflexivity].
Qed.

Lemma import_runs_no_check_witness :
  "docker_healthcheck" <> "__main__" /\
  module_body "docker_healthcheck" service_down = ([], Returned tt).
Proof.
  split; [discriminate |].
  apply (import_runs_no_check service_down "docker_healthcheck").
  discriminate.
Defined.

(** ** The harness: how the record grows *)

Lemma count_app (kind : hevent -> bool) (l r : list hevent) :
  count kind (l ++ r)%list = (count kind l + count kind r)%nat.
Proof.
  unfold count. now rewrite filter_app, length_app.
Qed.

Lemma moved_moved {E : Type} (s : hstate E) (o o' : E) (l r : list hevent) :
  moved (moved s o l) o' r = moved s o' (l ++ r)%list.
Proof.
  unfold moved; simpl. now rewrite app_assoc.
Qed.

Lemma moved_nil {E : Type} (s : hstate E) :
  moved s (outside s) [] = s.
Proof.
  destruct s; unfold moved; simpl. now rewrite app_nil_r.
Qed.

Lemma ask_moved {E A : Type} (ev : hevent) (f : E -> result A * E)
  (s : hstate E) :
  ask ev f s = (fst (f (outside s)), moved s (snd (f (outside s))) [ev]).
Proof.
  unfold ask, moved. now destruct (f (outside s)).
Qed.

Lemma emit_moved {E : Type} (ev : hevent) (s : hstate E) :
  emit ev s = (Returned tt, moved s (outside s) [ev]).
Proof. reflexivity. Qed.

Lemma obind_run {E A B : Type} (m : hprog E (option A))
  (k : A -> hprog E (option B)) (s : hstate E) :
  obind m k s =
    match m s with
    | (Returned (Some a), s1) => k a s1
    | (Returned None, s1) => (Returned None, s1)
    | (Raised e, s1) => (Raised e, s1)
    end.
Proof.
  unfold obind, hbind. destruct (m s) as [[[a |] | e] s1]; reflexivity.
Qed.

(** ** [task_run] *)

Section TaskRun.

Context {E : Type}.
Variable func : E -> result value * E.
Variable max_retries : Z.

(** One turn of the loop when the call raises an instance of [Exception]. *)
Lemma task_run_loop_failed (fuel : nat) (retry : Z) (s : hstate E)
  (e : exception) (o1 : E) :
  retry < max_retries ->
  func (outside s) = (Raised e, o1) ->
  isinstance e "Exception" = true ->
  task_run_loop func max_retries (S fuel) retry s =
    task_run_loop func max_retries fuel (retry + 1)
      (moved s o1 (failed_attempt e)).
Proof.
  intros Hlt Hf He.
  cbn [task_run_loop].
  destruct (Z.leb_spec max_retries retry) as [Hle | _]; [lia |].
  unfold hbind at 1. unfold htry, hbind at 1.
  rewrite ask_moved, Hf; simpl. rewrite He.
  unfold logger_error, hbind at 1. rewrite emit_moved.
  unfold hret at 1. unfold sleep, hbind at 1. rewrite emit_moved.
  rewrite !moved_moved. reflexivity.
Qed.

Lemma task_run_loop_returned (fuel : nat) (retry : Z) (s : hstate E)
  (v : value) (o1 : E) :
  retry < max_retries ->
  func (outside s) = (Returned v, o1) ->
  task_run_loop func max_retries (S fuel) retry s =
    (Returned (Some v), moved s o1 [CallFunc]).
Proof.
  intros Hlt Hf.
  cbn [task_run_loop].
  destruct (Z.leb_spec max_retries retry) as [Hle | _]; [lia |].
  unfold hbind at 1. unfold htry, hbind at 1.
  rewrite ask_moved, Hf; simpl. reflexivity.
Qed.

Lemma task_run_loop_escaped (fuel : nat) (retry : Z) (s : hstate E)
  (e : exception) (o1 : E) :
  retry < max_retries ->
  func (outside s) = (Raised e, o1) ->
  isinstance e "Exception" = false ->
  task_run_loop func max_retries (S fuel) retry s =
    (Raised e, moved s o1 [CallFunc]).
Proof.
  intros Hlt Hf He.
  cbn [task_run_loop].
  destruct (Z.leb_spec max_retries retry) as [Hle | _]; [lia |].
  unfold hbind at 1. unfold htry, hbind at 1.
  rewrite ask_moved, Hf; simpl. rewrite He. reflexivity.
Qed.

Lemma task_run_loop_done (fuel : nat) (retry : Z) (s : hstate E) :
  max_retries <= retry ->
  task_run_loop func max_retries fuel retry s =
    (Returned (Some (VBool false)), s).
Proof.
  intros Hle. destruct fuel; cbn [task_run_loop];
    destruct (Z.leb_spec max_retries retry); try lia; reflexivity.
Qed.

(** The loop after [n] failed attempts in a row. *)
Lemma task_run_loop_failures (n : nat) :
  forall (fuel : nat) (retry : Z) (s : hstate E)
         (es : list exception) (o' : E),
    retry + Z.of_nat n <= max_retries ->
    failures func n (outside s) = Some (es, o') ->
    task_run_loop func max_retries (n + fuel) retry s =
      task_run_loop func max_retries fuel (retry + Z.of_nat n)
        (moved s o' (flat_map failed_attempt es)).
Proof.
  induction n as [| n IH]; intros fuel retry s es o' Hle Hfail.
  - simpl in Hfail. injection Hfail as <- <-.
    simpl. rewrite moved_nil. now rewrite Z.add_0_r.
  - simpl in Hfail.
    destruct (func (outside s)) as [[v | e] o1] eqn:Hf; [discriminate |].
    destruct (isinstance e "Exception") eqn:He; [| discriminate].
    destruct (failures func n o1) as [[es1 o2] |] eqn:Hrest; [| discriminate].
    injection Hfail as <- <-.
    change (S n + fuel)%nat with (S (n + fuel)).
    rewrite (task_run_loop_failed _ _ _ e o1) by (trivial; lia).
    rewrite (IH fuel (retry + 1) (moved s o1 (failed_attempt e)) es1 o2)
      by (trivial; lia).
    rewrite moved_moved.
    replace (retry + 1 + Z.of_nat n) with (retry + Z.of_nat (S n)) by lia.
    reflexivity.
Qed.

Lemma failures_length (n : nat) :
  forall (o : E) (es : list exception) (o' : E),
    failures func n o = Some (es, o') -> length es = n.
Proof.
  induction n as [| n IH]; intros o es o' Hfail; simpl in Hfail.
  - now injection Hfail as <- <-.
  - destruct (func o) as [[v | e] o1]; [discriminate |].
    destruct (isinstance e "Exception"); [| discriminate].
    destruct (failures func n o1) as [[es1 o2] |] eqn:Hrest; [| discriminate].
    injection Hfail as <- <-. simpl. f_equal. eauto.
Qed.

End TaskRun.

(** X1. With [max_retries] zero or negative the wrapper never calls the
    function: it returns [False] and leaves everything as it was. *)
Theorem task_run_without_budget {E : Type}
  (func : E -> result value * E) (max_retries : Z) (s : hstate E) :
  max_retries <= 0 ->
  task_run func max_retries s = (Returned (Some (VBool false)), s).
Proof.
  intros Hle. unfold task_run. now apply task_run_loop_done.
Qed.

Lemma task_run_without_budget_witness :
  0 <= 0 /\
  task_run Lab.flaky 0 (Lab.initial 0%nat) =
    (Returned (Some (VBool false)), Lab.initial 0%nat).
Proof.
  split; [lia |].
  apply (task_run_without_budget Lab.flaky 0 (Lab.initial 0%nat)). lia.
Defined.

(** X2. When the function raises instances of [Exception] on its first [n]
    calls, with [n] below [max_retries], and returns [v] on the next, the
    wrapper returns [v].  It has called the function [n + 1] times, and after
    each failure it has logged the error and slept one second. *)
Theorem task_run_returns_first_success {E : Type}
  (func : E -> result value * E) (max_retries : Z) (s : hstate E)
  (n : nat) (es : list exception) (o1 o2 : E) (v : value) :
  failures func n (outside s) = Some (es, o1) ->
  Z.of_nat n < max_retries ->
  func o1 = (Returned v, o2) ->
  task_run func max_retries s =
    (Returned (Some v),
     moved s o2 (flat_map failed_attempt es ++ [CallFunc])%list).
Proof.
  intros Hfail Hlt Hret. unfold task_run.
  replace (Z.to_nat max_retries)
    with (n + S (Z.to_nat max_retries - n - 1))%nat by lia.
  rewrite (task_run_loop_failures func max_retries n _ 0 s es o1)
    by (trivial; lia).
  rewrite (task_run_loop_returned func max_retries _ _ _ v o2)
    by (trivial; simpl; lia).
  now rewrite moved_moved.
Qed.

Lemma task_run_returns_first_success_witness :
  failures Lab.flaky 2 (outside (Lab.initial 0%nat))
    = Some ([Lab.server_error; Lab.server_error], 2%nat) /\
  Z.of_nat 2 < 3 /\
  Lab.flaky 2%nat = (Returned (VStr "up"), 3%nat) /\
  task_run Lab.flaky 3 (Lab.initial 0%nat) =
    (Returned (Some (VStr "up")),
     moved (Lab.initial 0%nat) 3%nat
       (flat_map failed_attempt [Lab.server_error; Lab.server_error]
          ++ [CallFunc])%list).
Proof.
  split; [reflexivity | split; [reflexivity | split; [reflexivity |]]].
  apply (task_run_returns_first_success Lab.flaky 3 (Lab.initial 0%nat) 2
           [Lab.server_error; Lab.server_error] 2%nat 3%nat (VStr "up"));
    reflexivity.
Defined.

(** X3. When every one of the [max_retries] calls raises an instance of
    [Exception], the wrapper does not raise: it returns [False], having
    called the function [max_retries] times and slept after each call, the
    last one included. *)
Theorem task_run_gives_up {E : Type}
  (func : E -> result value * E) (max_retries : Z) (s : hstate E)
  (es : list exception) (o' : E) :
  failures func (Z.to_nat max_retries) (outside s) = Some (es, o') ->
  task_run func max_retries s =
    (Returned (Some (VBool false)), moved s o' (flat_map failed_attempt es)) /\
  count is_call_func (flat_map failed_attempt es) = Z.to_nat max_retries /\
  count is_sleep (flat_map failed_attempt es) = Z.to_nat max_retries.
Proof.
  intros Hfail.
  assert (Hlen := failures_length func _ _ _ _ Hfail).
  split.
  - unfold task_run.
    destruct (Z.le_gt_cases max_retries 0) as [Hle | Hgt].
    + replace (Z.to_nat max_retries) with 0%nat in Hfail by lia.
      simpl in Hfail. injection Hfail as <- <-.
      simpl. rewrite moved_nil. now apply task_run_loop_done.
    + replace (Z.to_nat max_retries) with (Z.to_nat max_retries + 0)%nat
        at 1 by lia.
      rewrite (task_run_loop_failures func max_retries _ _ 0 s es o')
        by (trivial; lia).
      apply task_run_loop_done. lia.
  - rewrite <- Hlen. clear.
    induction es as [| e es IH]; [now split |].
    change (flat_map failed_attempt (e :: es))
      with (failed_attempt e ++ flat_map failed_attempt es)%list.
    rewrite !count_app. destruct IH as [-> ->]. now split.
Qed.

Lemma task_run_gives_up_witness :
  failures Lab.flaky (Z.to_nat 2) (outside (Lab.initial 0%nat))
    = Some ([Lab.server_error; Lab.server_error], 2%nat) /\
  task_run Lab.flaky 2 (Lab.initial 0%nat) =
    (Returned (Some (VBool false)),
     moved (Lab.initial 0%nat) 2%nat
       (flat_map failed_attempt [Lab.server_error; Lab.server_error])) /\
  count is_call_func
    (flat_map failed_attempt [Lab.server_error; Lab.server_error])
    = Z.to_nat 2 /\
  count is_sleep
    (flat_map failed_attempt [Lab.server_error; Lab.server_error])
    = Z.to_nat 2.
Proof.
  split; [reflexivity |].
  apply (task_run_gives_up Lab.flaky 2 (Lab.initial 0%nat)
           [Lab.server_error; Lab.server_error] 2%nat).
  reflexivity.
Defined.

(** X4. An exception that is no instance of [Exception] (a
    [KeyboardInterrupt], a [SystemExit]) is not retried: it leaves the
    wrapper at once, with no log line and no sleep for that call. *)
Theorem task_run_lets_base_exceptions_through {E : Type}
  (func : E -> result value * E) (max_retries : Z) (s : hstate E)
  (n : nat) (es : list exception) (o1 o2 : E) (e : exception) :
  failures func n (outside s) = Some (es, o1) ->
  Z.of_nat n < max_retries ->
  func o1 = (Raised e, o2) ->
  isinstance e "Exception" = false ->
  task_run func max_retries s =
    (Raised e, moved s o2 (flat_map failed_attempt es ++ [CallFunc])%list).
Proof.
  intros Hfail Hlt Hraise He. unfold task_run.
  replace (Z.to_nat max_retries)
    with (n + S (Z.to_nat max_retries - n - 1))%nat by lia.
  rewrite (task_run_loop_failures func max_retries n _ 0 s es o1)
    by (trivial; lia).
  rewrite (task_run_loop_escaped func max_retries _ _ _ e o2)
    by (trivial; simpl; lia).
  now rewrite moved_moved.
Qed.

Lemma task_run_lets_base_exceptions_through_witness :
  failures Lab.interrupted 1 (outside (Lab.initial 0%nat))
    = Some ([Lab.server_error], 1%nat) /\
  Z.of_nat 1 < 3 /\
  Lab.interrupted 1%nat = (Raised Lab.keyboard_interrupt, 2%nat) /\
  isinstance Lab.keyboard_interrupt "Exception" = false /\
  task_run Lab.interrupted 3 (Lab.initial 0%nat) =
    (Raised Lab.keyboard_interrupt,
     moved (Lab.initial 0%nat) 2%nat
       (flat_map failed_attempt [Lab.server_error] ++ [CallFunc])%list).
Proof.
  split; [reflexivity | split; [reflexivity | split; [reflexivity |]]].
  split; [reflexivity |].
  apply (task_run_lets_base_exceptions_through Lab.interrupted 3
           (Lab.initial 0%nat) 1 [Lab.server_error] 1%nat 2%nat
           Lab.keyboard_interrupt); reflexivity.
Defined.

Section AnyCallable.

Context {E : Type}.
Variable call : hprog E value.
Variable max_retries : Z.

(** One turn of the wrapper's loop, by what the call does. *)
Lemma wrapper_loop_turn (fuel : nat) (retry : Z) (s : hstate E) :
  retry < max_retries ->
  wrapper_loop call max_retries (S fuel) retry s =
    match call (record CallFunc s) with
    | (Returned v, s1) => (Returned (Some v), s1)
    | (Raised e, s1) =>
        if isinstance e "Exception" then
          wrapper_loop call max_retries fuel (retry + 1)
            (record (Sleep 1)
               (record
                  (LogError [Lit "Error running the function: "; StrOf e])
                  s1))
        else (Raised e, s1)
    end.
Proof.
  intros Hlt. cbn [wrapper_loop].
  destruct (Z.leb_spec max_retries retry) as [Hle | _]; [lia |].
  unfold hbind at 1. unfold htry. unfold hbind at 1. unfold emit at 1.
  unfold hbind at 1.
  destruct (call (record CallFunc s)) as [[v | e] s1]; [reflexivity |].
  destruct (isinstance e "Exception"); reflexivity.
Qed.

Lemma wrapper_loop_done (fuel : nat) (retry : Z) (s : hstate E) :
  max_retries <= retry ->
  wrapper_loop call max_retries fuel retry s =
    (Returned (Some (VBool false)), s).
Proof.
  intros Hle. destruct fuel; cbn [wrapper_loop];
    destruct (Z.leb_spec max_retries retry); try lia; reflexivity.
Qed.

Lemma wrapper_loop_attempts (fuel : nat) :
  forall (retry : Z) (s : hstate E),
    fuel = Z.to_nat (max_retries - retry) ->
    exists (n : nat) (s1 : hstate E),
      (n <= fuel)%nat /\
      failed_attempts call n s = Some s1 /\
      ((n = fuel /\
        wrapper_loop call max_retries fuel retry s =
          (Returned (Some (VBool false)), s1)) \/
       ((n < fuel)%nat /\
        match call (record CallFunc s1) with
        | (Returned v, s2) =>
            wrapper_loop call max_retries fuel retry s
              = (Returned (Some v), s2)
        | (Raised e, s2) =>
            isinstance e "Exception" = false /\
            wrapper_loop call max_retries fuel retry s = (Raised e, s2)
        end)).
Proof.
  induction fuel as [| fuel IH]; intros retry s Hfuel.
  - exists 0%nat, s. split; [lia |]. split; [reflexivity |].
    left. split; [reflexivity |]. apply wrapper_loop_done. lia.
  - assert (Hlt : retry < max_retries) by lia.
    rewrite (wrapper_loop_turn fuel retry s Hlt).
    destruct (call (record CallFunc s)) as [[v | e] s1] eqn:Hcall.
    + exists 0%nat, s. split; [lia |]. split; [reflexivity |].
      right. split; [lia |]. now rewrite Hcall.
    + destruct (isinstance e "Exception") eqn:He.
      * destruct (IH (retry + 1)
                    (record (Sleep 1)
                       (record
                          (LogError
                             [Lit "Error running the function: "; StrOf e])
                          s1)))
          as (n & s2 & Hle & Hfail & Hend); [lia |].
        exists (S n), s2. split; [lia |].
        split; [cbn [failed_attempts]; now rewrite Hcall, He |].
        destruct Hend as [[-> Hrun] | [Hn Hrun]].
        -- left. now split.
        -- right. split; [lia | exact Hrun].
      * exists 0%nat, s. split; [lia |]. split; [reflexivity |].
        right. split; [lia |]. rewrite Hcall. now split.
Qed.

End AnyCallable.

(** For a function of the outside alone, [task_run] is the wrapper. *)
Lemma task_run_loop_is_wrapper_loop {E : Type}
  (func : E -> result value * E) (max_retries : Z) (fuel : nat) :
  forall (retry : Z) (s : hstate E),
    task_run_loop func max_retries fuel retry s
      = wrapper_loop (of_outside func) max_retries fuel retry s.
Proof.
  induction fuel as [| fuel IH]; intros retry s.
  - reflexivity.
  - destruct (Z.lt_ge_cases retry max_retries) as [Hlt | Hge].
    + rewrite (wrapper_loop_turn (of_outside func) max_retries fuel retry s
                 Hlt).
      unfold of_outside. cbn [record outside ports image_names tags
        container_names log].
      destruct (func (outside s)) as [[v | e] o1] eqn:Hf.
      * now rewrite (task_run_loop_returned func max_retries _ _ _ v o1).
      * destruct (isinstance e "Exception") eqn:He.
        -- rewrite (task_run_loop_failed func max_retries _ _ _ e o1)
             by trivial.
           rewrite IH. unfold moved, failed_attempt, record; simpl.
           now rewrite <- !app_assoc.
        -- now rewrite (task_run_loop_escaped func max_retries _ _ _ e o1).
    + rewrite task_run_loop_done, wrapper_loop_done by lia. reflexivity.
Qed.

Lemma task_run_is_wrapper {E : Type}
  (func : E -> result value * E) (max_retries : Z) (s : hstate E) :
  task_run func max_retries s = wrapper (of_outside func) max_retries s.
Proof. apply task_run_loop_is_wrapper_loop. Qed.

(** X5. Whatever the wrapped callable does, and it may change the class
    attributes, log and sleep itself, a call of the wrapper comes to an end
    within its budget.  It makes some [n] failed attempts, [n] at most
    [max_retries], each a call that raises an instance of [Exception]
    followed by the error log and a sleep of one second.  Then it gives up
    with [False], when [n] has reached [max_retries], or makes one more call
    and hands on what that call returns, or the exception it raises when this
    is no instance of [Exception]. *)
Theorem task_run_stays_within_budget {E : Type}
  (call : hprog E value) (max_retries : Z) (s : hstate E) :
  exists (n : nat) (s1 : hstate E),
    (n <= Z.to_nat max_retries)%nat /\
    failed_attempts call n s = Some s1 /\
    ((n = Z.to_nat max_retries /\
      wrapper call max_retries s = (Returned (Some (VBool false)), s1)) \/
     ((n < Z.to_nat max_retries)%nat /\
      match call (record CallFunc s1) with
      | (Returned v, s2) =>
          wrapper call max_retries s = (Returned (Some v), s2)
      | (Raised e, s2) =>
          isinstance e "Exception" = false /\
          wrapper call max_retries s = (Raised e, s2)
      end)).
Proof.
  unfold wrapper. apply wrapper_loop_attempts. lia.
Qed.

Example wrapper_around_port_allocation :
  wrapper (Lab.allocate Lab.sample) 3 (Lab.initial 0%nat)
  = (Returned (Some (VInt 5001)),
     mkState 2%nat [5001] [] [] []
       [CallFunc; ConnectEx "localhost" 5000; ConnectEx "localhost" 5001]).
Proof. vm_compute. reflexivity. Qed.

(** ** [is_running] and [start] *)

Section Polling.

Context {E : Type}.
Variable D : engine E.
Variable self : daemon.

(** The four ways one turn of the polling loop can go. *)
Lemma is_running_from_up (i : Z) (rest : list Z) (s : hstate E)
  (c : Docker.container) (o1 : E) :
  containers_get D (_container_name self) (outside s)
    = (Returned (Some c), o1) ->
  Docker.status c = "running" ->
  is_running_from D self (i :: rest) s =
    (Returned true, moved s o1 [ContainersGet (_container_name self)]).
Proof.
  intros Hget Hst. cbn [is_running_from].
  unfold hbind at 1. unfold htry, hbind at 1.
  rewrite ask_moved, Hget; simpl. unfold hret at 1.
  rewrite Hst; simpl. reflexivity.
Qed.

Lemma is_running_from_not_up (i : Z) (rest : list Z) (s : hstate E)
  (c : option Docker.container) (o1 : E) :
  containers_get D (_container_name self) (outside s) = (Returned c, o1) ->
  match c with
  | Some c => String.eqb (Docker.status c) "running" = false
  | None => True
  end ->
  is_running_from D self (i :: rest) s =
    is_running_from D self rest
      (moved s o1 [ContainersGet (_container_name self); Sleep 1]).
Proof.
  intros Hget Hst. cbn [is_running_from].
  unfold hbind at 1. unfold htry, hbind at 1.
  rewrite ask_moved, Hget; simpl.
  destruct c as [c |]; unfold hret at 1; [rewrite Hst |];
    unfold sleep, hbind at 1; rewrite emit_moved, moved_moved; reflexivity.
Qed.

Lemma is_running_from_not_found (i : Z) (rest : list Z) (s : hstate E)
  (e : exception) (o1 : E) :
  containers_get D (_container_name self) (outside s) = (Raised e, o1) ->
  isinstance e Docker.NotFound = true ->
  is_running_from D self (i :: rest) s =
    is_running_from D self rest
      (moved s o1
         [ContainersGet (_container_name self);
          LogError [Lit ("Attempt #" ++ str (VInt i) ++ " failed.")];
          Sleep 1]).
Proof.
  intros Hget He. cbn [is_running_from].
  unfold hbind at 1. unfold htry, hbind at 1.
  rewrite ask_moved, Hget; simpl. rewrite He.
  unfold logger_error, hbind at 1. rewrite emit_moved.
  unfold hret at 1. unfold sleep, hbind at 1. rewrite emit_moved.
  rewrite !moved_moved. reflexivity.
Qed.

Lemma is_running_from_error (i : Z) (rest : list Z) (s : hstate E)
  (e : exception) (o1 : E) :
  containers_get D (_container_name self) (outside s) = (Raised e, o1) ->
  isinstance e Docker.NotFound = false ->
  is_running_from D self (i :: rest) s =
    (Raised e, moved s o1 [ContainersGet (_container_name self)]).
Proof.
  intros Hget He. cbn [is_running_from].
  unfold hbind at 1. unfold htry, hbind at 1.
  rewrite ask_moved, Hget; simpl. rewrite He. reflexivity.
Qed.

(** What polls in vain leave in the record. *)
Lemma waits_record (tried : list Z) :
  forall (o : E) (waited : list hevent) (o1 : E),
    waits D self tried o = Some (waited, o1) ->
    count is_containers_get waited = length tried /\
    count is_sleep waited = length tried /\
    count is_containers_run waited = 0%nat /\
    forall ev : hevent, In ev waited -> is_sleep ev = true -> ev = Sleep 1.
Proof.
  induction tried as [| i tried IH]; intros o waited o1 Hwaits;
    cbn [waits] in Hwaits.
  - injection Hwaits as <- <-. repeat split. intros ev [].
  - destruct (containers_get D (_container_name self) o) as [[found | e] o2].
    + destruct (match found with
                | Some c => String.eqb (Docker.status c) "running"
                | None => false
                end); [discriminate |].
      destruct (waits D self tried o2) as [[evs o'] |] eqn:Hrest;
        [| discriminate].
      injection Hwaits as <- <-.
      destruct (IH _ _ _ Hrest) as (Hget & Hsleep & Hrun & Hone).
      unfold count in *. cbn [filter is_containers_get is_sleep
        is_containers_run length].
      repeat split; try lia.
      intros ev [<- | [<- | Hin]] Hev; try discriminate; auto.
    + destruct (isinstance e Docker.NotFound); [| discriminate].
      destruct (waits D self tried o2) as [[evs o'] |] eqn:Hrest;
        [| discriminate].
      injection Hwaits as <- <-.
      destruct (IH _ _ _ Hrest) as (Hget & Hsleep & Hrun & Hone).
      unfold count in *. cbn [filter is_containers_get is_sleep
        is_containers_run length].
      repeat split; try lia.
      intros ev [<- | [<- | [<- | Hin]]] Hev; try discriminate; auto.
Qed.

(** Every run of the polling loop: polls in vain, and then the end of the
    attempts, a running container, or an exception that is no [NotFound]. *)
Lemma is_running_from_waits (attempts : list Z) :
  forall s : hstate E,
  exists (tried rest : list Z) (waited : list hevent) (o1 : E),
    attempts = (tried ++ rest)%list /\
    waits D self tried (outside s) = Some (waited, o1) /\
    match rest with
    | [] =>
        is_running_from D self attempts s = (Returned false, moved s o1 waited)
    | _ :: _ =>
        match containers_get D (_container_name self) o1 with
        | (Returned (Some c), o2) =>
            Docker.status c = "running" /\
            is_running_from D self attempts s =
              (Returned true,
               moved s o2 (waited ++ [ContainersGet (_container_name self)]))
        | (Returned None, o2) => False
        | (Raised e, o2) =>
            isinstance e Docker.NotFound = false /\
            is_running_from D self attempts s =
              (Raised e,
               moved s o2 (waited ++ [ContainersGet (_container_name self)]))
        end
    end.
Proof.
  induction attempts as [| i attempts IH]; intros s.
  - exists [], [], [], (outside s). rewrite moved_nil. now repeat split.
  - destruct (containers_get D (_container_name self) (outside s))
      as [[found | e] o1] eqn:Hget.
    + destruct (match found with
                | Some c => String.eqb (Docker.status c) "running"
                | None => false
                end) eqn:Hup.
      * destruct found as [c |]; [| discriminate].
        apply String.eqb_eq in Hup.
        exists [], (i :: attempts), [], (outside s).
        split; [reflexivity |]. split; [reflexivity |].
        rewrite Hget. split; [exact Hup |].
        now apply (is_running_from_up i attempts s c o1).
      * assert (Hnot :
          match found with
          | Some c => String.eqb (Docker.status c) "running" = false
          | None => True
          end) by (destruct found; trivial).
        rewrite (is_running_from_not_up i attempts s found o1 Hget Hnot).
        destruct (IH (moved s o1
                        [ContainersGet (_container_name self); Sleep 1]))
          as (tried & rest & waited & o' & -> & Hwaits & Hend).
        cbn [outside moved] in Hwaits.
        exists (i :: tried), rest,
          (ContainersGet (_container_name self) :: Sleep 1 :: waited), o'.
        split; [reflexivity |].
        split; [cbn [waits]; now rewrite Hget, Hup, Hwaits |].
        destruct rest as [| j rest].
        -- now rewrite Hend, moved_moved.
        -- destruct (containers_get D (_container_name self) o')
             as [[[c |] | e] o2]; trivial;
             destruct Hend as [Hfact Hrun]; (split; [exact Hfact |]);
             now rewrite Hrun, moved_moved.
    + destruct (isinstance e Docker.NotFound) eqn:He.
      * rewrite (is_running_from_not_found i attempts s e o1 Hget He).
        set (l := [ContainersGet (_container_name self);
                   LogError [Lit ("Attempt #" ++ str (VInt i) ++ " failed.")];
                   Sleep 1]).
        destruct (IH (moved s o1 l))
          as (tried & rest & waited & o' & -> & Hwaits & Hend).
        cbn [outside moved] in Hwaits.
        exists (i :: tried), rest, (l ++ waited)%list, o'.
        split; [reflexivity |].
        split; [cbn [waits]; now rewrite Hget, He, Hwaits |].
        destruct rest as [| j rest].
        -- now rewrite Hend, moved_moved.
        -- destruct (containers_get D (_container_name self) o')
             as [[[c |] | e'] o2]; trivial;
             destruct Hend as [Hfact Hrun]; (split; [exact Hfact |]);
             rewrite Hrun, moved_moved; now rewrite <- app_assoc.
      * exists [], (i :: attempts), [], (outside s).
        split; [reflexivity |]. split; [reflexivity |].
        rewrite Hget. split; [exact He |].
        now apply (is_running_from_error i attempts s e o1).
Qed.

(** The record of any run of [is_running]. *)
Lemma is_running_record (s : hstate E) :
  exists (r : result bool) (o' : E) (new : list hevent),
    is_running D self s = (r, moved s o' new) /\
    count is_containers_run new = 0%nat /\
    (forall ev : hevent, In ev new -> is_sleep ev = true -> ev = Sleep 1) /\
    (r = Returned false ->
     count is_containers_get new = 5%nat /\ count is_sleep new = 5%nat) /\
    (r = Returned true ->
     exists polls : list hevent,
       new = (polls ++ [ContainersGet (_container_name self)])%list).
Proof.
  unfold is_running.
  destruct (is_running_from_waits [1; 2; 3; 4; 5] s)
    as (tried & rest & waited & o1 & Hsplit & Hwaits & Hend).
  destruct (waits_record tried _ _ _ Hwaits) as (Hget & Hsleep & Hrun & Hone).
  destruct rest as [| j rest].
  - rewrite app_nil_r in Hsplit. subst tried.
    exists (Returned false), o1, waited. split; [exact Hend |].
    repeat split; trivial; discriminate.
  - assert (Hrec : forall r o2,
      is_running_from D self [1; 2; 3; 4; 5] s =
        (r, moved s o2 (waited ++ [ContainersGet (_container_name self)])) ->
      r <> Returned false ->
      exists (r : result bool) (o' : E) (new : list hevent),
        is_running_from D self [1; 2; 3; 4; 5] s = (r, moved s o' new) /\
        count is_containers_run new = 0%nat /\
        (forall ev : hevent, In ev new -> is_sleep ev = true -> ev = Sleep 1) /\
        (r = Returned false ->
         count is_containers_get new = 5%nat /\ count is_sleep new = 5%nat) /\
        (r = Returned true ->
         exists polls : list hevent,
           new = (polls ++ [ContainersGet (_container_name self)])%list)).
    { intros r o2 Heq Hr.
      exists r, o2, (waited ++ [ContainersGet (_container_name self)])%list.
      split; [exact Heq |].
      split; [rewrite count_app, Hrun; reflexivity |].
      split.
      - intros ev Hin Hev. apply in_app_or in Hin.
        destruct Hin as [Hin | [<- | []]]; [auto | discriminate].
      - split; [intros ->; contradiction | intros _; now exists waited]. }
    destruct (containers_get D (_container_name self) o1)
      as [[[c |] | e] o2]; try contradiction;
      destruct Hend as [_ Heq]; apply (Hrec _ _ Heq); discriminate.
Qed.

Lemma is_running_from_missing (attempts : list Z) :
  (forall o : E, exists (e : exception) (o1 : E),
      containers_get D (_container_name self) o = (Raised e, o1) /\
      isinstance e Docker.NotFound = true) ->
  forall s : hstate E,
  exists (o' : E) (new : list hevent),
    is_running_from D self attempts s = (Returned false, moved s o' new) /\
    count is_sleep new = length attempts /\
    filter is_log_error new =
      map (fun i => LogError [Lit ("Attempt #" ++ str (VInt i) ++ " failed.")])
        attempts.
Proof.
  intros Hmissing.
  induction attempts as [| i rest IH]; intros s.
  - exists (outside s), []. simpl. rewrite moved_nil. now repeat split.
  - destruct (Hmissing (outside s)) as (e & o1 & Hget & He).
    rewrite (is_running_from_not_found i rest s e o1 Hget He).
    set (l := [ContainersGet (_container_name self);
               LogError [Lit ("Attempt #" ++ str (VInt i) ++ " failed.")];
               Sleep 1]).
    destruct (IH (moved s o1 l)) as (o' & new & Hrun & Hsl & Hlog).
    exists o', (l ++ new)%list.
    rewrite Hrun, moved_moved. split; [reflexivity |].
    rewrite count_app, filter_app, Hsl, Hlog.
    split; reflexivity.
Qed.

End Polling.

Section Starting.

Context {E : Type}.
Variable D : engine E.
Variable self : daemon.

Lemma docker_run_record (s : hstate E) :
  exists (r : result bool) (o' : E) (tail : list hevent),
    _docker_run D self s =
      (r, moved s o'
            (ContainersRun (_image_name self ++ ":" ++ _tag self)
               (_container_name self) [("HOST", "0.0.0.0")]
               [(_port self, _port self)] :: tail)) /\
    count is_containers_run tail = 0%nat /\
    forall ev : hevent, In ev tail -> is_sleep ev = false.
Proof.
  unfold _docker_run, hbind. rewrite ask_moved.
  match goal with
  | |- context [containers_run D ?i ?n ?e ?p (outside s)] =>
      destruct (containers_run D i n e p (outside s)) as [[[c |] | e'] o1]
  end; cbn [fst snd].
  - exists (Returned true), o1, []. repeat split. intros ev [].
  - unfold logger_error. rewrite emit_moved. unfold hret.
    rewrite moved_moved. cbn [app].
    eexists (Returned false), o1, [_]. repeat split.
    intros ev [<- | []]. reflexivity.
  - exists (Raised e'), o1, []. repeat split. intros ev [].
Qed.

Lemma start_unfolded (s : hstate E) :
  start D self s =
    match is_running D self s with
    | (Returned false, s1) =>
        match _docker_run D self s1 with
        | (Returned true, s2) => is_running D self s2
        | (Returned false, s2) => (Returned false, s2)
        | (Raised e, s2) => (Raised e, s2)
        end
    | (Returned true, s1) => (Returned false, s1)
    | (Raised e, s1) => (Raised e, s1)
    end.
Proof.
  unfold start, hbind.
  destruct (is_running D self s) as [[[|] | e] s1]; simpl; try reflexivity.
  destruct (_docker_run D self s1) as [[[|] | e] s2]; reflexivity.
Qed.

End Starting.

(** X6. [is_running] asks the engine at most five times, and after every
    poll that did not end the loop, the container being absent or not
    running, it sleeps one second.  Then either the five attempts are used up
    and the answer is [False], after exactly five polls and five sleeps; or
    one more poll finds the container running and the answer is [True]; or
    that poll raises an exception that is no [NotFound], which leaves
    [is_running] as it is. *)
Theorem is_running_polls_at_most_five {E : Type}
  (D : engine E) (self : daemon) (s : hstate E) :
  exists (tried rest : list Z) (waited : list hevent) (o1 : E),
    [1; 2; 3; 4; 5] = (tried ++ rest)%list /\
    waits D self tried (outside s) = Some (waited, o1) /\
    count is_containers_get waited = length tried /\
    count is_sleep waited = length tried /\
    (forall ev : hevent, In ev waited -> is_sleep ev = true -> ev = Sleep 1) /\
    match rest with
    | [] =>
        length tried = 5%nat /\
        is_running D self s = (Returned false, moved s o1 waited)
    | _ :: _ =>
        (length tried < 5)%nat /\
        match containers_get D (_container_name self) o1 with
        | (Returned (Some c), o2) =>
            Docker.status c = "running" /\
            is_running D self s =
              (Returned true,
               moved s o2 (waited ++ [ContainersGet (_container_name self)]))
        | (Returned None, o2) => False
        | (Raised e, o2) =>
            isinstance e Docker.NotFound = false /\
            is_running D self s =
              (Raised e,
               moved s o2 (waited ++ [ContainersGet (_container_name self)]))
        end
    end.
Proof.
  unfold is_running.
  destruct (is_running_from_waits D self [1; 2; 3; 4; 5] s)
    as (tried & rest & waited & o1 & Hsplit & Hwaits & Hend).
  destruct (waits_record D self tried _ _ _ Hwaits)
    as (Hget & Hsleep & _ & Hone).
  exists tried, rest, waited, o1.
  repeat (split; [assumption |]).
  apply (f_equal (@length Z)) in Hsplit. rewrite length_app in Hsplit.
  simpl in Hsplit.
  destruct rest as [| j rest]; simpl in Hsplit.
  - split; [lia | exact Hend].
  - split; [lia |].
    destruct (containers_get D (_container_name self) o1)
      as [[[c |] | e] o2]; exact Hend.
Qed.

(** X7. While the container does not exist, every poll raising [NotFound],
    [is_running] answers [False] after five sleeps, and the errors it logs
    are numbered 1 to 5. *)
Theorem is_running_container_missing {E : Type}
  (D : engine E) (self : daemon) (s : hstate E) :
  (forall o : E, exists (e : exception) (o1 : E),
      containers_get D (_container_name self) o = (Raised e, o1) /\
      isinstance e Docker.NotFound = true) ->
  fst (is_running D self s) = Returned false /\
  exists (o' : E) (new : list hevent),
    snd (is_running D self s) = moved s o' new /\
    count is_sleep new = 5%nat /\
    filter is_log_error new =
      [LogError [Lit "Attempt #1 failed."];
       LogError [Lit "Attempt #2 failed."];
       LogError [Lit "Attempt #3 failed."];
       LogError [Lit "Attempt #4 failed."];
       LogError [Lit "Attempt #5 failed."]].
Proof.
  intros Hmissing. unfold is_running.
  destruct (is_running_from_missing D self [1; 2; 3; 4; 5] Hmissing s)
    as (o' & new & Hrun & Hsl & Hlog).
  rewrite Hrun. split; [reflexivity |].
  exists o', new. repeat split; trivial.
Qed.

Lemma is_running_container_missing_witness :
  (forall o : Lab.clock, exists (e : exception) (o1 : Lab.clock),
      containers_get (Lab.bench Lab.absent 0 (Raised Lab.not_found) [])
        (_container_name Lab.web) o = (Raised e, o1) /\
      isinstance e Docker.NotFound = true) /\
  fst (is_running (Lab.bench Lab.absent 0 (Raised Lab.not_found) [])
         Lab.web (Lab.initial 0%nat)) = Returned false.
Proof.
  assert (Hmissing : forall o : Lab.clock,
    exists (e : exception) (o1 : Lab.clock),
      containers_get (Lab.bench Lab.absent 0 (Raised Lab.not_found) [])
        (_container_name Lab.web) o = (Raised e, o1) /\
      isinstance e Docker.NotFound = true).
  { intros o. exists Lab.not_found, (S o). split; reflexivity. }
  split; [exact Hmissing |].
  exact (proj1 (is_running_container_missing
                  (Lab.bench Lab.absent 0 (Raised Lab.not_found) [])
                  Lab.web (Lab.initial 0%nat) Hmissing)).
Defined.

(** X8. [start] on a container that is already running answers [False]:
    the first poll sees it running, and [containers.run] is not called. *)
Theorem start_on_running_container {E : Type}
  (D : engine E) (self : daemon) (s : hstate E)
  (c : Docker.container) (o1 : E) :
  containers_get D (_container_name self) (outside s)
    = (Returned (Some c), o1) ->
  Docker.status c = "running" ->
  start D self s =
    (Returned false, moved s o1 [ContainersGet (_container_name self)]).
Proof.
  intros Hget Hst. rewrite start_unfolded. unfold is_running.
  now rewrite (is_running_from_up D self _ _ s c o1 Hget Hst).
Qed.

Lemma start_on_running_container_witness :
  containers_get (Lab.bench Lab.running 0 (Raised Lab.not_found) [])
    (_container_name Lab.web) (outside (Lab.initial 0%nat))
    = (Returned (Some (Docker.mkContainer "pytest_web" "running")), 1%nat) /\
  Docker.status (Docker.mkContainer "pytest_web" "running") = "running" /\
  start (Lab.bench Lab.running 0 (Raised Lab.not_found) []) Lab.web
    (Lab.initial 0%nat) =
    (Returned false,
     moved (Lab.initial 0%nat) 1%nat
       [ContainersGet (_container_name Lab.web)]).
Proof.
  split; [reflexivity | split; [reflexivity |]].
  apply (start_on_running_container
           (Lab.bench Lab.running 0 (Raised Lab.not_found) []) Lab.web
           (Lab.initial 0%nat) (Docker.mkContainer "pytest_web" "running")
           1%nat); reflexivity.
Defined.

(** X9. [start] calls [containers.run] at most once, and never answers
    [True] without that call.  When the call is made, it comes after five
    polls in vain, each followed by a sleep of one second, and when [start]
    then answers [True], its last act is one more poll.  [start] sleeps for
    no other length of time. *)
Theorem start_runs_at_most_once {E : Type}
  (D : engine E) (self : daemon) (s : hstate E) :
  exists (r : result bool) (o' : E) (new : list hevent),
    start D self s = (r, moved s o' new) /\
    (forall ev : hevent, In ev new -> is_sleep ev = true -> ev = Sleep 1) /\
    ((count is_containers_run new = 0%nat /\ r <> Returned true) \/
     exists before after : list hevent,
       new =
         (before
            ++ ContainersRun (_image_name self ++ ":" ++ _tag self)
                 (_container_name self) [("HOST", "0.0.0.0")]
                 [(_port self, _port self)] :: after)%list /\
       count is_containers_run before = 0%nat /\
       count is_containers_run after = 0%nat /\
       count is_containers_get before = 5%nat /\
       count is_sleep before = 5%nat /\
       (r = Returned true ->
        exists polls : list hevent,
          after = (polls ++ [ContainersGet (_container_name self)])%list)).
Proof.
  rewrite start_unfolded.
  destruct (is_running_record D self s)
    as (r1 & o1 & new1 & Hrun1 & Hnone1 & Hone1 & Hfalse1 & _).
  rewrite Hrun1. destruct r1 as [[|] | e1].
  - exists (Returned false), o1, new1. split; [reflexivity |].
    split; [exact Hone1 |]. left. split; [exact Hnone1 | discriminate].
  - destruct (Hfalse1 eq_refl) as [Hget1 Hsleep1].
    destruct (docker_run_record D self (moved s o1 new1))
      as (r2 & o2 & tail & Hrun2 & Hnone2 & Hquiet2).
    rewrite Hrun2, moved_moved.
    assert (Hone2 : forall ev : hevent,
      In ev tail -> is_sleep ev = true -> ev = Sleep 1).
    { intros ev Hin Hev. rewrite (Hquiet2 ev Hin) in Hev. discriminate. }
    destruct r2 as [[|] | e2].
    + destruct (is_running_record D self
                  (moved s o2
                     (new1
                        ++ ContainersRun (_image_name self ++ ":" ++ _tag self)
                             (_container_name self) [("HOST", "0.0.0.0")]
                             [(_port self, _port self)] :: tail)))
        as (r3 & o3 & new3 & Hrun3 & Hnone3 & Hone3 & _ & Htrue3).
      rewrite Hrun3, moved_moved. eexists r3, o3, _.
      split; [reflexivity |]. split.
      * intros ev Hin Hev.
        apply in_app_or in Hin. destruct Hin as [Hin | Hin]; [| auto].
        apply in_app_or in Hin.
        destruct Hin as [Hin | [<- | Hin]]; [auto | discriminate | auto].
      * right. exists new1, (tail ++ new3)%list.
        split; [now rewrite <- app_assoc |].
        rewrite count_app, Hnone2, Hnone3.
        repeat split; trivial.
        intros Htrue. destruct (Htrue3 Htrue) as (polls & ->).
        exists (tail ++ polls)%list. now rewrite app_assoc.
    + eexists (Returned false), o2, _. split; [reflexivity |]. split.
      * intros ev Hin Hev. apply in_app_or in Hin.
        destruct Hin as [Hin | [<- | Hin]]; [auto | discriminate | auto].
      * right. exists new1, tail. repeat split; trivial. discriminate.
    + eexists (Raised e2), o2, _. split; [reflexivity |]. split.
      * intros ev Hin Hev. apply in_app_or in Hin.
        destruct Hin as [Hin | [<- | Hin]]; [auto | discriminate | auto].
      * right. exists new1, tail. repeat split; trivial. discriminate.
  - exists (Raised e1), o1, new1. split; [reflexivity |].
    split; [exact Hone1 |]. left. split; [exact Hnone1 | discriminate].
Qed.

(** ** [get_next_port] *)

Lemma existsb_Zeqb_In (p : Z) (l : list Z) :
  existsb (Z.eqb p) l = true <-> In p l.
Proof.
  rewrite existsb_exists. split.
  - intros (q & Hin & Heq). apply Z.eqb_eq in Heq. now subst.
  - intros Hin. exists p. split; [trivial | apply Z.eqb_refl].
Qed.

Lemma ports_ahead_next (port : Z) (listed : list Z) :
  (ports_ahead (port + 1) listed <= ports_ahead port listed)%nat.
Proof.
  unfold ports_ahead.
  assert (length (filter (fun q => (port + 1 <=? q)%Z) listed)
          <= length (filter (fun q => (port <=? q)%Z) listed))%nat.
  { induction listed as [| q l IH]; simpl; [lia |].
    destruct (Z.leb_spec (port + 1) q), (Z.leb_spec port q); simpl; lia. }
  lia.
Qed.

Lemma ports_ahead_listed (port : Z) (listed : list Z) :
  In port listed ->
  (ports_ahead (port + 1) listed < ports_ahead port listed)%nat.
Proof.
  unfold ports_ahead. intros Hin.
  assert (length (filter (fun q => (port + 1 <=? q)%Z) listed)
          < length (filter (fun q => (port <=? q)%Z) listed))%nat.
  { induction listed as [| q l IH]; simpl; [contradiction |].
    assert (Hmono : (length (filter (fun q => (port + 1 <=? q)%Z) l)
                     <= length (filter (fun q => (port <=? q)%Z) l))%nat).
    { clear. induction l as [| q l IH]; simpl; [lia |].
      destruct (Z.leb_spec (port + 1) q), (Z.leb_spec port q); simpl; lia. }
    destruct Hin as [-> | Hin].
    - destruct (Z.leb_spec (port + 1) port), (Z.leb_spec port port);
        simpl; lia.
    - specialize (IH Hin).
      destruct (Z.leb_spec (port + 1) q), (Z.leb_spec port q); simpl; lia. }
  lia.
Qed.

Lemma ports_ahead_in_range (port : Z) (listed : list Z) :
  port <= 65535 ->
  (ports_ahead (port + 1) listed < ports_ahead port listed)%nat.
Proof.
  intros Hle. pose proof (ports_ahead_next port listed) as Hmono.
  unfold ports_ahead in *.
  assert (length (filter (fun q => (port + 1 <=? q)%Z) listed)
          <= length (filter (fun q => (port <=? q)%Z) listed))%nat.
  { clear. induction listed as [| q l IH]; simpl; [lia |].
    destruct (Z.leb_spec (port + 1) q), (Z.leb_spec port q); simpl; lia. }
  lia.
Qed.

Lemma port_fuel_enough (listed : list Z) :
  (ports_ahead 5000 listed <= port_fuel listed)%nat.
Proof.
  unfold ports_ahead, port_fuel.
  pose proof (filter_length_le (fun q => (5000 <=? q)%Z) listed).
  lia.
Qed.

Local Ltac tally :=
  unfold count; cbn [filter is_connect_ex length]; lia.

Section Ports.

Context {E : Type}.
Variable D : engine E.

(** One turn of the loop. *)
Lemma get_next_port_loop_turn (fuel : nat) (port : Z) (s : hstate E) :
  get_next_port_loop D fuel port s =
    if existsb (Z.eqb port) (ports s) then
      match fuel with
      | O => (Returned None, s)
      | S fuel' => get_next_port_loop D fuel' (port + 1) s
      end
    else if (0 <=? port) && (port <=? 65535) then
      match connect_ex D "localhost" port (outside s) with
      | (Returned r, o1) =>
          if r =? 0 then
            match fuel with
            | O => (Returned None, moved s o1 [ConnectEx "localhost" port])
            | S fuel' =>
                get_next_port_loop D fuel' (port + 1)
                  (moved s o1 [ConnectEx "localhost" port])
            end
          else (Returned (Some port), moved s o1 [ConnectEx "localhost" port])
      | (Raised e, o1) => (Raised e, moved s o1 [ConnectEx "localhost" port])
      end
    else (Raised (OverflowError "connect_ex(): port must be 0-65535."), s).
Proof.
  destruct fuel; cbn [get_next_port_loop]; unfold hbind at 1;
    (destruct (existsb (Z.eqb port) (ports s)); [reflexivity |]);
    unfold is_port_in_use;
    (destruct ((0 <=? port) && (port <=? 65535)); [| reflexivity]);
    unfold hbind at 1; rewrite ask_moved;
    destruct (connect_ex D "localhost" port (outside s)) as [[r | e] o1];
    cbn [fst snd]; try reflexivity; unfold hret at 1;
    destruct (r =? 0); reflexivity.
Qed.

(** What the loop has found when it is left, and how many sockets it has
    tried. *)
Lemma get_next_port_loop_found (fuel : nat) :
  forall (port : Z) (s : hstate E),
  exists (r : result (option Z)) (o' : E) (new : list hevent),
    get_next_port_loop D fuel port s = (r, moved s o' new) /\
    (count is_connect_ex new <= Z.to_nat (65536 - port))%nat /\
    match r with
    | Returned (Some p) =>
        port <= p /\ 0 <= p <= 65535 /\ ~ In p (ports s)
    | Returned None => (fuel < ports_ahead port (ports s))%nat
    | Raised e => True
    end.
Proof.
  induction fuel as [| fuel IH]; intros port s;
    rewrite get_next_port_loop_turn;
    destruct (existsb (Z.eqb port) (ports s)) eqn:Hlisted.
  - exists (Returned None), (outside s), []. rewrite moved_nil.
    split; [reflexivity |]. split; [tally |].
    apply existsb_Zeqb_In in Hlisted.
    pose proof (ports_ahead_listed port (ports s) Hlisted). lia.
  - destruct ((0 <=? port) && (port <=? 65535)) eqn:Hrange.
    + apply andb_prop in Hrange. destruct Hrange as [H0 H1].
      apply Z.leb_le in H0, H1.
      destruct (connect_ex D "localhost" port (outside s)) as [[r | e] o1].
      * destruct (r =? 0); eexists _, o1, [ConnectEx "localhost" port];
          (split; [reflexivity |]);
          (split; [tally |]).
        -- pose proof (ports_ahead_in_range port (ports s) H1). lia.
        -- repeat split; try lia.
           intros Hin. apply existsb_Zeqb_In in Hin. congruence.
      * eexists _, o1, [ConnectEx "localhost" port].
        split; [reflexivity |]. split; [tally | exact I].
    + eexists _, (outside s), []. rewrite moved_nil.
      split; [reflexivity |]. split; [tally | exact I].
  - destruct (IH (port + 1) s) as (r & o' & new & Hrun & Hcount & Hres).
    exists r, o', new. split; [exact Hrun |]. split; [lia |].
    apply existsb_Zeqb_In in Hlisted.
    pose proof (ports_ahead_listed port (ports s) Hlisted).
    destruct r as [[p |] | e]; trivial; try lia.
    destruct Hres as (? & ? & ?). repeat split; trivial; lia.
  - destruct ((0 <=? port) && (port <=? 65535)) eqn:Hrange.
    + apply andb_prop in Hrange. destruct Hrange as [H0 H1].
      apply Z.leb_le in H0, H1.
      destruct (connect_ex D "localhost" port (outside s)) as [[r | e] o1].
      * destruct (r =? 0).
        -- destruct (IH (port + 1) (moved s o1 [ConnectEx "localhost" port]))
             as (r' & o' & new & Hrun & Hcount & Hres).
           exists r', o', ([ConnectEx "localhost" port] ++ new)%list.
           rewrite Hrun, moved_moved. split; [reflexivity |].
           rewrite count_app.
           change (count is_connect_ex [ConnectEx "localhost" port])
             with 1%nat.
           split; [lia |].
           pose proof (ports_ahead_in_range port (ports s) H1).
           destruct r' as [[p |] | e]; trivial.
           ++ destruct Hres as (? & ? & ?). repeat split; trivial; lia.
           ++ simpl in Hres. lia.
        -- eexists _, o1, [ConnectEx "localhost" port].
           split; [reflexivity |]. split; [tally |].
           repeat split; try lia.
           intros Hin. apply existsb_Zeqb_In in Hin. congruence.
      * eexists _, o1, [ConnectEx "localhost" port].
        split; [reflexivity |]. split; [tally | exact I].
    + eexists _, (outside s), []. rewrite moved_nil.
      split; [reflexivity |]. split; [tally | exact I].
Qed.

(** The call as a whole: the loop with its fuel, then the [append]. *)
Lemma get_next_port_found (s : hstate E) :
  match fst (get_next_port D s) with
  | Returned (Some p) =>
      5000 <= p <= 65535 /\ ~ In p (ports s) /\
      ports (snd (get_next_port D s)) = (ports s ++ [p])%list /\
      image_names (snd (get_next_port D s)) = image_names s /\
      tags (snd (get_next_port D s)) = tags s /\
      container_names (snd (get_next_port D s)) = container_names s
  | Returned None => False
  | Raised e => same_attributes s (snd (get_next_port D s))
  end /\
  exists new : list hevent,
    log (snd (get_next_port D s)) = (log s ++ new)%list /\
    (count is_connect_ex new <= Z.to_nat 60536)%nat.
Proof.
  unfold get_next_port. rewrite obind_run.
  destruct (get_next_port_loop_found (port_fuel (ports s)) 5000 s)
    as (r & o' & new & Hrun & Hcount & Hres).
  rewrite Hrun.
  destruct r as [[p |] | e]; cbn [fst snd].
  - unfold append_port, hbind, hret; simpl.
    split; [| exists new; split; [reflexivity | lia]].
    destruct Hres as (? & ? & ?). repeat split; trivial; lia.
  - pose proof (port_fuel_enough (ports s)). lia.
  - split; [now repeat split | exists new; split; [reflexivity | lia]].
Qed.

(** With a probe that answers by the port alone, the port found is the
    first one from [port] on that is neither listed nor in use. *)
Lemma get_next_port_loop_least (probe : Z -> Z) :
  (forall (q : Z) (o : E),
      fst (connect_ex D "localhost" q o) = Returned (probe q)) ->
  forall (fuel : nat) (port : Z) (s s' : hstate E) (p : Z),
    get_next_port_loop D fuel port s = (Returned (Some p), s') ->
    probe p <> 0 /\
    forall q : Z, port <= q < p -> In q (ports s) \/ probe q = 0.
Proof.
  intros Hprobe.
  induction fuel as [| fuel IH]; intros port s s' p;
    rewrite get_next_port_loop_turn;
    destruct (existsb (Z.eqb port) (ports s)) eqn:Hlisted;
    try discriminate.
  - destruct ((0 <=? port) && (port <=? 65535)); [| discriminate].
    pose proof (Hprobe port (outside s)) as Hp.
    destruct (connect_ex D "localhost" port (outside s)) as [r o1].
    cbn [fst] in Hp. subst r.
    destruct (Z.eqb_spec (probe port) 0) as [Heq | Hne]; [discriminate |].
    intros Hrun. injection Hrun as <- _.
    split; [exact Hne | intros q Hq; lia].
  - intros Hrun. destruct (IH _ _ _ _ Hrun) as [Hfree Hbelow].
    split; [exact Hfree |]. intros q Hq.
    destruct (Z.eq_dec q port) as [-> | Hne].
    + left. now apply existsb_Zeqb_In.
    + apply Hbelow. lia.
  - destruct ((0 <=? port) && (port <=? 65535)); [| discriminate].
    pose proof (Hprobe port (outside s)) as Hp.
    destruct (connect_ex D "localhost" port (outside s)) as [r o1].
    cbn [fst] in Hp. subst r.
    destruct (Z.eqb_spec (probe port) 0) as [Heq | Hne].
    + intros Hrun. destruct (IH _ _ _ _ Hrun) as [Hfree Hbelow].
      split; [exact Hfree |]. intros q Hq.
      destruct (Z.eq_dec q port) as [-> | Hne].
      * now right.
      * apply Hbelow. lia.
    + intros Hrun. injection Hrun as <- _.
      split; [exact Hne | intros q Hq; lia].
Qed.

End Ports.

(** X10. [get_next_port] always comes to an end.  Its loop cannot go on
    for ever: past port 65535 [connect_ex] raises [OverflowError], so at
    most 60536 sockets are tried.  When the call raises, no port is
    recorded. *)
Theorem get_next_port_comes_to_an_end {E : Type}
  (D : engine E) (s : hstate E) :
  fst (get_next_port D s) <> Returned None /\
  (forall e : exception,
      fst (get_next_port D s) = Raised e ->
      same_attributes s (snd (get_next_port D s))) /\
  exists new : list hevent,
    log (snd (get_next_port D s)) = (log s ++ new)%list /\
    (count is_connect_ex new <= Z.to_nat 60536)%nat.
Proof.
  destruct (get_next_port_found D s) as [Hfound Hlog].
  split; [| split; [| exact Hlog]].
  - intros Hnone. now rewrite Hnone in Hfound.
  - intros e He. now rewrite He in Hfound.
Qed.

(** X11. A port that [get_next_port] returns lies between 5000 and 65535,
    was not in [DockerContainerDaemon.ports] before, and is appended to that
    list; the other class attributes are left alone. *)
Theorem get_next_port_is_fresh {E : Type}
  (D : engine E) (s s' : hstate E) (p : Z) :
  get_next_port D s = (Returned (Some p), s') ->
  5000 <= p <= 65535 /\
  ~ In p (ports s) /\
  ports s' = (ports s ++ [p])%list /\
  image_names s' = image_names s /\
  tags s' = tags s /\
  container_names s' = container_names s.
Proof.
  intros Hrun. destruct (get_next_port_found D s) as [Hfound _].
  rewrite Hrun in Hfound. exact Hfound.
Qed.

Lemma get_next_port_is_fresh_witness :
  get_next_port (Lab.bench Lab.absent 0 (Raised Lab.not_found) [5000; 5002])
    (mkState 0%nat [5001] [] [] [] [])
  = (Returned (Some 5003),
     mkState 3%nat [5001; 5003] [] [] []
       [ConnectEx "localhost" 5000; ConnectEx "localhost" 5002;
        ConnectEx "localhost" 5003]) /\
  (5000 <= 5003 <= 65535 /\
   ~ In 5003 [5001] /\
   [5001; 5003] = ([5001] ++ [5003])%list /\
   @nil string = [] /\ @nil string = [] /\ @nil string = []).
Proof.
  assert (Hrun :
    get_next_port (Lab.bench Lab.absent 0 (Raised Lab.not_found) [5000; 5002])
      (mkState 0%nat [5001] [] [] [] [])
    = (Returned (Some 5003),
       mkState 3%nat [5001; 5003] [] [] []
         [ConnectEx "localhost" 5000; ConnectEx "localhost" 5002;
          ConnectEx "localhost" 5003])).
  { vm_compute. reflexivity. }
  split; [exact Hrun |].
  exact (get_next_port_is_fresh _ _ _ _ Hrun).
Defined.

(** X12. When the answer of [connect_ex] depends on the port alone, the
    port returned is the lowest one from 5000 on that is neither in
    [DockerContainerDaemon.ports] nor in use. *)
Theorem get_next_port_is_lowest_free {E : Type}
  (D : engine E) (probe : Z -> Z) (s s' : hstate E) (p : Z) :
  (forall (q : Z) (o : E),
      fst (connect_ex D "localhost" q o) = Returned (probe q)) ->
  get_next_port D s = (Returned (Some p), s') ->
  probe p <> 0 /\
  forall q : Z, 5000 <= q < p -> In q (ports s) \/ probe q = 0.
Proof.
  intros Hprobe Hrun.
  unfold get_next_port in Hrun. rewrite obind_run in Hrun.
  destruct (get_next_port_loop D (port_fuel (ports s)) 5000 s)
    as [[[p' |] | e] s1] eqn:Hloop; try discriminate.
  unfold append_port, hbind, hret in Hrun; simpl in Hrun.
  injection Hrun as <- _.
  exact (get_next_port_loop_least D probe Hprobe _ _ _ _ _ Hloop).
Qed.

Lemma get_next_port_is_lowest_free_witness :
  (forall (q : Z) (o : Lab.clock),
     fst (connect_ex
            (Lab.bench Lab.absent 0 (Raised Lab.not_found) [5000; 5002])
            "localhost" q o)
     = Returned (if existsb (Z.eqb q) [5000; 5002] then 0 else 111)) /\
  get_next_port (Lab.bench Lab.absent 0 (Raised Lab.not_found) [5000; 5002])
    (mkState 0%nat [5001] [] [] [] [])
  = (Returned (Some 5003),
     mkState 3%nat [5001; 5003] [] [] []
       [ConnectEx "localhost" 5000; ConnectEx "localhost" 5002;
        ConnectEx "localhost" 5003]) /\
  ((if existsb (Z.eqb 5003) [5000; 5002] then 0 else 111) <> 0 /\
   forall q : Z, 5000 <= q < 5003 ->
     In q [5001] \/ (if existsb (Z.eqb q) [5000; 5002] then 0 else 111) = 0).
Proof.
  assert (Hprobe : forall (q : Z) (o : Lab.clock),
    fst (connect_ex
           (Lab.bench Lab.absent 0 (Raised Lab.not_found) [5000; 5002])
           "localhost" q o)
    = Returned (if existsb (Z.eqb q) [5000; 5002] then 0 else 111)).
  { intros q o. reflexivity. }
  assert (Hrun :
    get_next_port (Lab.bench Lab.absent 0 (Raised Lab.not_found) [5000; 5002])
      (mkState 0%nat [5001] [] [] [] [])
    = (Returned (Some 5003),
       mkState 3%nat [5001; 5003] [] [] []
         [ConnectEx "localhost" 5000; ConnectEx "localhost" 5002;
          ConnectEx "localhost" 5003])).
  { vm_compute. reflexivity. }
  split; [exact Hprobe | split; [exact Hrun |]].
  exact (get_next_port_is_lowest_free _ _ _ _ _ Hprobe Hrun).
Defined.

(** X13. Two calls of [get_next_port] in a row never return the same port,
    even when nothing has started to listen on the first one in between. *)
Theorem get_next_port_twice_differs {E : Type}
  (D : engine E) (s s1 s2 : hstate E) (p q : Z) :
  get_next_port D s = (Returned (Some p), s1) ->
  get_next_port D s1 = (Returned (Some q), s2) ->
  p <> q /\ ports s2 = (ports s ++ [p; q])%list.
Proof.
  intros Hfirst Hsecond.
  destruct (get_next_port_found D s) as [H1 _]. rewrite Hfirst in H1.
  destruct (get_next_port_found D s1) as [H2 _]. rewrite Hsecond in H2.
  cbn [fst snd] in H1, H2.
  destruct H1 as (_ & _ & Hp1 & _). destruct H2 as (_ & Hnot & Hp2 & _).
  split.
  - intros ->. apply Hnot. rewrite Hp1. apply in_or_app. right. now left.
  - rewrite Hp2, Hp1, <- app_assoc. reflexivity.
Qed.

Lemma get_next_port_twice_differs_witness :
  get_next_port (Lab.bench Lab.absent 0 (Raised Lab.not_found) [])
    (Lab.initial 0%nat)
  = (Returned (Some 5000),
     mkState 1%nat [5000] [] [] [] [ConnectEx "localhost" 5000]) /\
  get_next_port (Lab.bench Lab.absent 0 (Raised Lab.not_found) [])
    (mkState 1%nat [5000] [] [] [] [ConnectEx "localhost" 5000])
  = (Returned (Some 5001),
     mkState 2%nat [5000; 5001] [] [] []
       [ConnectEx "localhost" 5000; ConnectEx "localhost" 5001]) /\
  (5000 <> 5001 /\ [5000; 5001] = ([] ++ [5000; 5001])%list).
Proof.
  assert (Hfirst :
    get_next_port (Lab.bench Lab.absent 0 (Raised Lab.not_found) [])
      (Lab.initial 0%nat)
    = (Returned (Some 5000),
       mkState 1%nat [5000] [] [] [] [ConnectEx "localhost" 5000])).
  { vm_compute. reflexivity. }
  assert (Hsecond :
    get_next_port (Lab.bench Lab.absent 0 (Raised Lab.not_found) [])
      (mkState 1%nat [5000] [] [] [] [ConnectEx "localhost" 5000])
    = (Returned (Some 5001),
       mkState 2%nat [5000; 5001] [] [] []
         [ConnectEx "localhost" 5000; ConnectEx "localhost" 5001])).
  { vm_compute. reflexivity. }
  split; [exact Hfirst | split; [exact Hsecond |]].
  exact (get_next_port_twice_differs _ _ _ _ _ _ Hfirst Hsecond).
Defined.

(** ** Names: [get_hash] and the three [get_next_] loops *)

Lemma existsb_eqb_In (x : string) (l : list string) :
  existsb (String.eqb x) l = true <-> In x l.
Proof.
  rewrite existsb_exists. split.
  - intros (y & Hin & Heq). apply String.eqb_eq in Heq. now subst.
  - intros Hin. exists x. split; [trivial | apply String.eqb_refl].
Qed.

Lemma substring_length_le (n : nat) :
  forall s : string, (String.length (substring 0 n s) <= n)%nat.
Proof.
  induction n as [| n IH]; intros [| c s]; simpl; try lia.
  specialize (IH s). lia.
Qed.

Lemma same_attributes_refl {E : Type} (s : hstate E) : same_attributes s s.
Proof. now repeat split. Qed.

Lemma same_attributes_trans {E : Type} (s1 s2 s3 : hstate E) :
  same_attributes s1 s2 -> same_attributes s2 s3 -> same_attributes s1 s3.
Proof.
  unfold same_attributes. intros (? & ? & ? & ?) (? & ? & ? & ?).
  repeat split; congruence.
Qed.

Lemma same_attributes_moved {E : Type} (s : hstate E) (o : E)
  (new : list hevent) :
  same_attributes s (moved s o new).
Proof. now repeat split. Qed.

Section Names.

Context {E : Type}.
Variable D : engine E.

Lemma randbits_list_run (n : nat) :
  forall s : hstate E,
  exists (bs : list Z) (o' : E) (new : list hevent),
    randbits_list D n s = (Returned bs, moved s o' new).
Proof.
  induction n as [| n IH]; intros s.
  - exists [], (outside s), []. now rewrite moved_nil.
  - cbn [randbits_list]. unfold hbind at 1. unfold query. rewrite ask_moved.
    destruct (randbits D 32 (outside s)) as [b o1]. cbn [fst snd].
    destruct (IH (moved s o1 [RandBits 32])) as (bs & o' & new & Hrun).
    unfold hbind. rewrite Hrun. unfold hret. rewrite moved_moved.
    now exists (b :: bs), o', ([RandBits 32] ++ new)%list.
Qed.

(** [get_hash] never raises; it gives at most 15 characters. *)
Lemma get_hash_run (s : hstate E) :
  exists (h : string) (o' : E) (new : list hevent),
    get_hash D s = (Returned h, moved s o' new) /\
    (String.length h <= 15)%nat.
Proof.
  unfold get_hash, hbind.
  destruct (randbits_list_run 10 s) as (bs & o1 & new1 & Hbits).
  rewrite Hbits. unfold query. rewrite ask_moved.
  destruct (now D (outside (moved s o1 new1))) as [stamp o2].
  cbn [fst snd]. unfold hret. rewrite moved_moved.
  eexists _, o2, _. split; [reflexivity |].
  apply substring_length_le.
Qed.

(** The tag loop: it never raises, and a tag it gives is not in the list. *)
Lemma get_next_tag_loop_run (fuel : nat) :
  forall (tag : string) (s : hstate E),
    (String.length tag <= 15)%nat ->
    exists (found : option string) (o' : E) (new : list hevent),
      get_next_tag_loop D fuel tag s = (Returned found, moved s o' new) /\
      match found with
      | Some t => ~ In t (tags s) /\ (String.length t <= 15)%nat
      | None => True
      end.
Proof.
  induction fuel as [| fuel IH]; intros tag s Hlen; cbn [get_next_tag_loop];
    destruct (existsb (String.eqb tag) (tags s)) eqn:Hin.
  - exists None, (outside s), []. now rewrite moved_nil.
  - exists (Some tag), (outside s), []. rewrite moved_nil.
    split; [reflexivity |]. split; [| exact Hlen].
    intros H. apply existsb_eqb_In in H. congruence.
  - unfold hbind.
    destruct (get_hash_run s) as (h & o1 & new1 & Hhash & Hh).
    rewrite Hhash.
    destruct (IH h (moved s o1 new1) Hh) as (found & o' & new & Hrun & Hres).
    rewrite Hrun, moved_moved. now exists found, o', (new1 ++ new)%list.
  - exists (Some tag), (outside s), []. rewrite moved_nil.
    split; [reflexivity |]. split; [| exact Hlen].
    intros H. apply existsb_eqb_In in H. congruence.
Qed.

Lemma get_next_container_name_loop_run (fuel : nat) :
  forall (name : string) (s : hstate E),
    exists (found : option string) (o' : E) (new : list hevent),
      get_next_container_name_loop D fuel name s
        = (Returned found, moved s o' new) /\
      match found with
      | Some t => ~ In t (container_names s)
      | None => True
      end.
Proof.
  induction fuel as [| fuel IH]; intros name s;
    cbn [get_next_container_name_loop];
    destruct (existsb (String.eqb name) (container_names s)) eqn:Hin.
  - exists None, (outside s), []. now rewrite moved_nil.
  - exists (Some name), (outside s), []. rewrite moved_nil.
    split; [reflexivity |].
    intros H. apply existsb_eqb_In in H. congruence.
  - unfold hbind.
    destruct (get_hash_run s) as (h & o1 & new1 & Hhash & Hh).
    rewrite Hhash.
    destruct (IH h (moved s o1 new1)) as (found & o' & new & Hrun & Hres).
    rewrite Hrun, moved_moved. now exists found, o', (new1 ++ new)%list.
  - exists (Some name), (outside s), []. rewrite moved_nil.
    split; [reflexivity |].
    intros H. apply existsb_eqb_In in H. congruence.
Qed.

(** [check_if_object_exists] touches no class attribute and lets no
    [APIError] out. *)
Lemma check_if_object_exists_run (name : string) (s : hstate E) :
  exists (r : result value) (o' : E) (new : list hevent),
    check_if_object_exists D name s = (r, moved s o' new) /\
    match r with
    | Returned v => v = VBool true \/ v = VNone \/ v = VBool false
    | Raised e => isinstance e Docker.APIError = false
    end.
Proof.
  unfold check_if_object_exists, htry.
  unfold hbind at 1. rewrite ask_moved.
  destruct (from_env D (outside s)) as [[[] | e] o1]; cbn [fst snd].
  - unfold hbind at 1. rewrite ask_moved.
    destruct (containers_list D name (outside (moved s o1 [FromEnv])))
      as [[[| c cs] | e] o2]; cbn [fst snd]; rewrite moved_moved.
    + unfold hbind at 1. rewrite ask_moved.
      destruct (images_list D name (outside (moved s o2 _)))
        as [[[| i more] | e] o3]; cbn [fst snd]; rewrite moved_moved.
      * unfold hret. eexists _, o3, _. split; [reflexivity |]. simpl; tauto.
      * unfold hret. eexists _, o3, _. split; [reflexivity |]. simpl; tauto.
      * destruct (isinstance e Docker.APIError) eqn:He.
        -- unfold hret. eexists _, o3, _. split; [reflexivity |]. simpl; tauto.
        -- eexists _, o3, _. split; [reflexivity |]. exact He.
    + unfold hret. eexists _, o2, _. split; [reflexivity |]. simpl; tauto.
    + destruct (isinstance e Docker.APIError) eqn:He.
      * unfold hret. eexists _, o2, _. split; [reflexivity |]. simpl; tauto.
      * eexists _, o2, _. split; [reflexivity |]. exact He.
  - destruct (isinstance e Docker.APIError) eqn:He.
    + unfold hret. eexists _, o1, _. split; [reflexivity |]. simpl; tauto.
    + eexists _, o1, _. split; [reflexivity |]. exact He.
Qed.

Lemma get_next_image_name_loop_run (fuel : nat) :
  forall (name : string) (s : hstate E),
    exists (r : result (option string)) (o' : E) (new : list hevent),
      get_next_image_name_loop D fuel name s = (r, moved s o' new) /\
      match r with
      | Returned (Some t) => ~ In t (image_names s)
      | Returned None => True
      | Raised e => isinstance e Docker.APIError = false
      end.
Proof.
  induction fuel as [| fuel IH]; intros name s;
    cbn [get_next_image_name_loop]; unfold hbind at 1;
    destruct (existsb (String.eqb name) (image_names s)) eqn:Hin.
  - unfold hret. exists (Returned None), (outside s), [].
    now rewrite moved_nil.
  - unfold hbind at 1.
    destruct (check_if_object_exists_run name s)
      as ([v | e] & o1 & new1 & Hrun & Hres); rewrite Hrun.
    + unfold hret. destruct (truthy v); eexists _, o1, new1;
        (split; [reflexivity |]); simpl; trivial.
      intros H. apply existsb_eqb_In in H. congruence.
    + now exists (Raised e), o1, new1.
  - unfold hret at 1. unfold hbind.
    destruct (get_hash_run s) as (h & o1 & new1 & Hhash & Hh).
    rewrite Hhash.
    destruct (IH h (moved s o1 new1)) as (r & o' & new & Hrun & Hres).
    exists r, o', (new1 ++ new)%list. rewrite Hrun, moved_moved.
    split; [reflexivity | exact Hres].
  - unfold hbind at 1.
    destruct (check_if_object_exists_run name s)
      as ([v | e] & o1 & new1 & Hrun & Hres); rewrite Hrun.
    + unfold hret at 1. destruct (truthy v).
      * unfold hbind.
        destruct (get_hash_run (moved s o1 new1))
          as (h & o2 & new2 & Hhash & Hh).
        rewrite Hhash.
        destruct (IH h (moved (moved s o1 new1) o2 new2))
          as (r & o' & new & Hrun' & Hres').
        exists r, o', (new1 ++ new2 ++ new)%list.
        rewrite Hrun', !moved_moved. split; [reflexivity | exact Hres'].
      * unfold hret. eexists _, o1, new1. split; [reflexivity |].
        intros H. apply existsb_eqb_In in H. congruence.
    + now exists (Raised e), o1, new1.
Qed.

End Names.

Section Init.

Context {E : Type}.
Variable D : engine E.

Lemma get_next_tag_run (fuel : nat) (s : hstate E) :
  exists (found : option string) (o' : E) (new : list hevent),
    get_next_tag D fuel s =
      (Returned found,
       match found with
       | Some t =>
           mkState o' (ports s) (image_names s) (tags s ++ [t])%list
             (container_names s) (log s ++ new)%list
       | None => moved s o' new
       end) /\
    match found with
    | Some t => ~ In t (tags s) /\ (String.length t <= 15)%nat
    | None => True
    end.
Proof.
  unfold get_next_tag, obind, hbind.
  destruct (get_hash_run D s) as (h & o1 & new1 & Hhash & Hh).
  rewrite Hhash.
  destruct (get_next_tag_loop_run D fuel h (moved s o1 new1) Hh)
    as (found & o' & new & Hrun & Hres).
  rewrite Hrun, moved_moved.
  exists found, o', (new1 ++ new)%list.
  destruct found as [t |]; split; trivial.
Qed.

Lemma get_next_container_name_run (fuel : nat) (s : hstate E) :
  exists (found : option string) (o' : E) (new : list hevent),
    get_next_container_name D fuel s =
      (Returned found,
       match found with
       | Some t =>
           mkState o' (ports s) (image_names s) (tags s)
             (container_names s ++ [t])%list (log s ++ new)%list
       | None => moved s o' new
       end) /\
    match found with
    | Some t => ~ In t (container_names s)
    | None => True
    end.
Proof.
  unfold get_next_container_name, obind, hbind.
  destruct (get_hash_run D s) as (h & o1 & new1 & Hhash & Hh).
  rewrite Hhash.
  destruct (get_next_container_name_loop_run D fuel h (moved s o1 new1))
    as (found & o' & new & Hrun & Hres).
  rewrite Hrun, moved_moved.
  exists found, o', (new1 ++ new)%list.
  destruct found as [t |]; split; trivial.
Qed.

Lemma get_next_image_name_run (fuel : nat) (s : hstate E) :
  exists (r : result (option string)) (o' : E) (new : list hevent),
    get_next_image_name D fuel s =
      (r,
       match r with
       | Returned (Some t) =>
           mkState o' (ports s) (image_names s ++ [t])%list (tags s)
             (container_names s) (log s ++ new)%list
       | _ => moved s o' new
       end) /\
    match r with
    | Returned (Some t) => ~ In t (image_names s)
    | Returned None => True
    | Raised e => isinstance e Docker.APIError = false
    end.
Proof.
  unfold get_next_image_name, obind, hbind.
  destruct (get_hash_run D s) as (h & o1 & new1 & Hhash & Hh).
  rewrite Hhash.
  destruct (get_next_image_name_loop_run D fuel h (moved s o1 new1))
    as (r & o' & new & Hrun & Hres).
  rewrite Hrun, moved_moved.
  exists r, o', (new1 ++ new)%list.
  destruct r as [[t |] | e]; split; trivial.
Qed.

(** What [__init__] sets and records when it returns. *)
Lemma init_run (fuel : nat) (port : Z)
  (image_name tag context dockerfile_path : string)
  (s s' : hstate E) (d : daemon) :
  __init__ D fuel port image_name tag context dockerfile_path s
    = (Returned (Some d), s') ->
  _dockerfile_path d = dockerfile_path /\
  _context d = context /\
  (if String.eqb tag ""
   then ~ In (_tag d) (tags s) /\ tags s' = (tags s ++ [_tag d])%list
   else _tag d = tag /\ tags s' = tags s) /\
  (if String.eqb image_name ""
   then exists n : string,
          _image_name d = "pytest_" ++ n /\ ~ In n (image_names s) /\
          image_names s' = (image_names s ++ [n])%list
   else _image_name d = image_name /\ image_names s' = image_names s) /\
  (if port =? 0
   then exists p : Z,
          _port d = str (VInt p) /\ 5000 <= p <= 65535 /\
          ~ In p (ports s) /\ ports s' = (ports s ++ [p])%list
   else _port d = str (VInt port) /\ ports s' = ports s) /\
  exists n : string,
    _container_name d = "pytest_" ++ n /\ ~ In n (container_names s) /\
    container_names s' = (container_names s ++ [n])%list.
Proof.
  unfold __init__. unfold hbind at 1. rewrite ask_moved.
  destruct (from_env D (outside s)) as [[[] | e0] o0]; cbn [fst snd];
    [| discriminate].
  set (s0 := moved s o0 [FromEnv]).
  rewrite obind_run.
  (* the tag *)
  assert (Htag : exists (r : result (option string)) (s1 : hstate E),
    (if String.eqb tag "" then get_next_tag D fuel else hret (Some tag)) s0
      = (r, s1) /\
    ports s1 = ports s /\ image_names s1 = image_names s /\
    container_names s1 = container_names s /\
    match r with
    | Returned (Some t) =>
        if String.eqb tag ""
        then ~ In t (tags s) /\ tags s1 = (tags s ++ [t])%list
        else t = tag /\ tags s1 = tags s
    | _ => True
    end).
  { destruct (String.eqb tag "").
    - destruct (get_next_tag_run fuel s0) as (found & o' & new & Hrun & Hres).
      eexists _, _. split; [exact Hrun |].
      destruct found as [t |]; simpl; repeat split; tauto.
    - eexists _, _. split; [reflexivity |]. simpl. now repeat split. }
  destruct Htag as (r1 & s1 & Hrun1 & Hp1 & Hi1 & Hc1 & Ht1).
  rewrite Hrun1. destruct r1 as [[t |] | e1]; try discriminate.
  rewrite obind_run.
  (* the image name *)
  assert (Himg : exists (r : result (option string)) (s2 : hstate E),
    (if String.eqb image_name ""
     then obind (get_next_image_name D fuel)
            (fun x => hret (Some ("pytest_" ++ x)))
     else hret (Some image_name)) s1 = (r, s2) /\
    ports s2 = ports s1 /\ tags s2 = tags s1 /\
    container_names s2 = container_names s1 /\
    match r with
    | Returned (Some i) =>
        if String.eqb image_name ""
        then exists n : string,
               i = "pytest_" ++ n /\ ~ In n (image_names s1) /\
               image_names s2 = (image_names s1 ++ [n])%list
        else i = image_name /\ image_names s2 = image_names s1
    | _ => True
    end).
  { destruct (String.eqb image_name "").
    - rewrite obind_run.
      destruct (get_next_image_name_run fuel s1)
        as (r & o' & new & Hrun & Hres).
      rewrite Hrun. destruct r as [[n |] | e]; unfold hret;
        eexists _, _; (split; [reflexivity |]); simpl; repeat split; trivial.
      exists n. now repeat split.
    - eexists _, _. split; [reflexivity |]. simpl. now repeat split. }
  destruct Himg as (r2 & s2 & Hrun2 & Hp2 & Ht2 & Hc2 & Hi2).
  rewrite Hrun2. destruct r2 as [[i |] | e2]; try discriminate.
  rewrite obind_run.
  (* the port *)
  assert (Hport : exists (r : result (option Z)) (s3 : hstate E),
    (if port =? 0 then get_next_port D else hret (Some port)) s2 = (r, s3) /\
    image_names s3 = image_names s2 /\ tags s3 = tags s2 /\
    container_names s3 = container_names s2 /\
    match r with
    | Returned (Some p) =>
        if port =? 0
        then 5000 <= p <= 65535 /\ ~ In p (ports s2) /\
             ports s3 = (ports s2 ++ [p])%list
        else p = port /\ ports s3 = ports s2
    | _ => True
    end).
  { destruct (port =? 0).
    - pose proof (get_next_port_found D s2) as Hfound.
      destruct (get_next_port D s2) as [r s3]. cbn [fst snd] in Hfound.
      exists r, s3. split; [reflexivity |].
      destruct Hfound as [Hfound _].
      destruct r as [[p |] | e]; try contradiction.
      + tauto.
      + destruct Hfound as (_ & ? & ? & ?). tauto.
    - eexists _, _. split; [reflexivity |]. simpl. now repeat split. }
  destruct Hport as (r3 & s3 & Hrun3 & Hi3 & Ht3 & Hc3 & Hp3).
  rewrite Hrun3. destruct r3 as [[p |] | e3]; try discriminate.
  rewrite obind_run.
  (* the container name *)
  destruct (get_next_container_name_run fuel s3)
    as (found & o4 & new4 & Hrun4 & Hres4).
  rewrite Hrun4. destruct found as [n |]; try discriminate.
  unfold hret. intros Hinit. injection Hinit as <- <-.
  cbn [_dockerfile_path _context _tag _image_name _port _container_name
       ports image_names tags container_names].
  split; [reflexivity |]. split; [reflexivity |].
  split.
  { rewrite Ht3, Ht2. destruct (String.eqb tag ""); exact Ht1. }
  split.
  { rewrite Hi3. rewrite Hi1 in Hi2.
    destruct (String.eqb image_name ""); exact Hi2. }
  split.
  { rewrite Hp2, Hp1 in Hp3. destruct (port =? 0).
    - exists p. tauto.
    - destruct Hp3 as [-> ->]. now split. }
  exists n. rewrite Hc3, Hc2, Hc1 in *. now repeat split.
Qed.

End Init.

(** ** Text of a port *)

Lemma to_int_not_nil (z : Z) :
  Z.to_int z <> Decimal.Pos Decimal.Nil /\
  Z.to_int z <> Decimal.Neg Decimal.Nil.
Proof.
  destruct z; simpl; split; try discriminate; intros H; injection H as H;
    now apply (DecimalPos.Unsigned.to_uint_nonnil p).
Qed.

(** [str] of an [int] can be read back. *)
Lemma str_int_inj (p q : Z) : str (VInt p) = str (VInt q) -> p = q.
Proof.
  unfold str. intros H. apply DecimalZ.to_int_inj.
  apply (f_equal NilZero.int_of_string) in H.
  destruct (to_int_not_nil p), (to_int_not_nil q).
  rewrite !NilZero.isi in H by trivial. congruence.
Qed.

Lemma append_length (a b : string) :
  String.length (a ++ b) = (String.length a + String.length b)%nat.
Proof.
  induction a as [| c a IH]; simpl; [reflexivity | now rewrite IH].
Qed.

Lemma append_inj_r (t : string) :
  forall s1 s2 : string, s1 ++ t = s2 ++ t -> s1 = s2.
Proof.
  induction s1 as [| c1 s1 IH]; intros [| c2 s2] H; simpl in H.
  - reflexivity.
  - apply (f_equal String.length) in H. simpl in H.
    rewrite append_length in H. lia.
  - apply (f_equal String.length) in H. simpl in H.
    rewrite append_length in H. lia.
  - injection H as -> H. f_equal. now apply IH.
Qed.

Lemma append_inj_l (t : string) :
  forall s1 s2 : string, t ++ s1 = t ++ s2 -> s1 = s2.
Proof.
  induction t as [| c t IH]; simpl; intros s1 s2 H; [exact H |].
  injection H as H. now apply IH.
Qed.

(** X14. For one host, two integer ports give the same URL only when they
    are the same port: the decimal text of the port can be read back. *)
Theorem health_url_tells_ports_apart (host : string) (p q : Z) :
  health_url host (VInt p) = health_url host (VInt q) -> p = q.
Proof.
  unfold health_url. intros H.
  apply append_inj_l in H. apply append_inj_l in H. apply append_inj_l in H.
  apply append_inj_r in H. now apply str_int_inj.
Qed.

Lemma health_url_tells_ports_apart_witness :
  health_url "localhost" (VInt 5000) = health_url "localhost" (VInt (2500 * 2))
  /\ 5000 = 2500 * 2.
Proof.
  split; [reflexivity |].
  apply (health_url_tells_ports_apart "localhost" 5000 (2500 * 2)).
  reflexivity.
Defined.

(** ** Names and construction *)

(** X15. A tag that [get_next_tag] returns was not in
    [DockerContainerDaemon.tags] before and is appended to it; it has at most
    15 characters, and the other class attributes are left alone. *)
Theorem get_next_tag_is_fresh {E : Type}
  (D : engine E) (fuel : nat) (s s' : hstate E) (t : string) :
  get_next_tag D fuel s = (Returned (Some t), s') ->
  ~ In t (tags s) /\
  tags s' = (tags s ++ [t])%list /\
  (String.length t <= 15)%nat /\
  ports s' = ports s /\
  image_names s' = image_names s /\
  container_names s' = container_names s.
Proof.
  intros Hrun.
  destruct (get_next_tag_run D fuel s) as (found & o' & new & Heq & Hres).
  rewrite Heq in Hrun. injection Hrun as -> <-.
  destruct Hres as [Hfresh Hlen]. now repeat split.
Qed.

Lemma get_next_tag_is_fresh_witness :
  get_next_tag Lab.sample 3 (mkState 0%nat [] [] ["DCD0-1-2-3-4-5-"] [] [])
  = (Returned (Some "DCD11-12-13-14-"),
     snd (get_next_tag Lab.sample 3
            (mkState 0%nat [] [] ["DCD0-1-2-3-4-5-"] [] []))) /\
  ~ In "DCD11-12-13-14-" ["DCD0-1-2-3-4-5-"] /\
  tags (snd (get_next_tag Lab.sample 3
               (mkState 0%nat [] [] ["DCD0-1-2-3-4-5-"] [] [])))
  = ["DCD0-1-2-3-4-5-"; "DCD11-12-13-14-"].
Proof.
  assert (Hrun :
    get_next_tag Lab.sample 3 (mkState 0%nat [] [] ["DCD0-1-2-3-4-5-"] [] [])
    = (Returned (Some "DCD11-12-13-14-"),
       snd (get_next_tag Lab.sample 3
              (mkState 0%nat [] [] ["DCD0-1-2-3-4-5-"] [] [])))).
  { vm_compute. reflexivity. }
  split; [exact Hrun |].
  destruct (get_next_tag_is_fresh _ _ _ _ _ Hrun) as (Hfresh & Htags & _).
  split; [exact Hfresh | exact Htags].
Defined.

(** X16. An image name that [get_next_image_name] returns was not in
    [DockerContainerDaemon.image_names] before and is appended to it; the
    other class attributes are left alone. *)
Theorem get_next_image_name_is_fresh {E : Type}
  (D : engine E) (fuel : nat) (s s' : hstate E) (n : string) :
  get_next_image_name D fuel s = (Returned (Some n), s') ->
  ~ In n (image_names s) /\
  image_names s' = (image_names s ++ [n])%list /\
  ports s' = ports s /\
  tags s' = tags s /\
  container_names s' = container_names s.
Proof.
  intros Hrun.
  destruct (get_next_image_name_run D fuel s) as (r & o' & new & Heq & Hres).
  rewrite Heq in Hrun. injection Hrun as -> <-.
  now repeat split.
Qed.

Lemma get_next_image_name_is_fresh_witness :
  get_next_image_name Lab.sample 3
    (mkState 0%nat [] ["DCD0-1-2-3-4-5-"] [] [] [])
  = (Returned (Some "DCD11-12-13-14-"),
     snd (get_next_image_name Lab.sample 3
            (mkState 0%nat [] ["DCD0-1-2-3-4-5-"] [] [] []))) /\
  ~ In "DCD11-12-13-14-" ["DCD0-1-2-3-4-5-"] /\
  image_names (snd (get_next_image_name Lab.sample 3
                      (mkState 0%nat [] ["DCD0-1-2-3-4-5-"] [] [] [])))
  = ["DCD0-1-2-3-4-5-"; "DCD11-12-13-14-"].
Proof.
  assert (Hrun :
    get_next_image_name Lab.sample 3
      (mkState 0%nat [] ["DCD0-1-2-3-4-5-"] [] [] [])
    = (Returned (Some "DCD11-12-13-14-"),
       snd (get_next_image_name Lab.sample 3
              (mkState 0%nat [] ["DCD0-1-2-3-4-5-"] [] [] [])))).
  { vm_compute. reflexivity. }
  split; [exact Hrun |].
  destruct (get_next_image_name_is_fresh _ _ _ _ _ Hrun)
    as (Hfresh & Hnames & _).
  split; [exact Hfresh | exact Hnames].
Defined.

(** X17. A daemon built with a port of the caller's choice keeps the port
    as its decimal text, so that [check_health(get_port())] asks the same URL
    as [check_health(port)]; that port is not entered in
    [DockerContainerDaemon.ports]. *)
Theorem init_with_given_port {E : Type}
  (D : engine E) (fuel : nat) (port : Z)
  (image_name tag context dockerfile_path : string)
  (s s' : hstate E) (d : daemon) :
  port <> 0 ->
  __init__ D fuel port image_name tag context dockerfile_path s
    = (Returned (Some d), s') ->
  get_port d = str (VInt port) /\
  ports s' = ports s /\
  forall w : world,
    check_health (VStr (get_port d)) w = check_health (VInt port) w.
Proof.
  intros Hport Hrun.
  destruct (init_run D _ _ _ _ _ _ _ _ _ Hrun) as (_ & _ & _ & _ & Hp & _).
  destruct (Z.eqb_spec port 0) as [| _]; [contradiction |].
  destruct Hp as [Htext Hports].
  repeat split; trivial.
  intros w. unfold get_port. rewrite Htext.
  unfold check_health, health_url. reflexivity.
Qed.

Lemma init_with_given_port_witness :
  5000 <> 0 /\
  __init__ Lab.sample 3 5000 "" "" "." "./Dockerfile" (Lab.initial 0%nat)
  = (Returned
       (Some (mkDaemon "./Dockerfile" "DCD1-2-3-4-5-6-"
                "pytest_DCD12-13-14-15-" "5000" "." "pytest_DCD26-27-28-29-")),
     snd (__init__ Lab.sample 3 5000 "" "" "." "./Dockerfile"
            (Lab.initial 0%nat))) /\
  ports (snd (__init__ Lab.sample 3 5000 "" "" "." "./Dockerfile"
                (Lab.initial 0%nat))) = [].
Proof.
  assert (Hrun :
    __init__ Lab.sample 3 5000 "" "" "." "./Dockerfile" (Lab.initial 0%nat)
    = (Returned
         (Some (mkDaemon "./Dockerfile" "DCD1-2-3-4-5-6-"
                  "pytest_DCD12-13-14-15-" "5000" "."
                  "pytest_DCD26-27-28-29-")),
       snd (__init__ Lab.sample 3 5000 "" "" "." "./Dockerfile"
              (Lab.initial 0%nat)))).
  { vm_compute. reflexivity. }
  assert (Hport : 5000 <> 0) by lia.
  split; [exact Hport | split; [exact Hrun |]].
  destruct (init_with_given_port _ _ _ _ _ _ _ _ _ _ Hport Hrun)
    as (_ & Hports & _).
  exact Hports.
Defined.

(** X18. A daemon built with port 0 gets its port from [get_next_port]:
    the port lies between 5000 and 65535, was not in
    [DockerContainerDaemon.ports] before and is appended to it, and
    [get_port] gives its decimal text. *)
Theorem init_allocates_port {E : Type}
  (D : engine E) (fuel : nat)
  (image_name tag context dockerfile_path : string)
  (s s' : hstate E) (d : daemon) :
  __init__ D fuel 0 image_name tag context dockerfile_path s
    = (Returned (Some d), s') ->
  exists p : Z,
    get_port d = str (VInt p) /\
    5000 <= p <= 65535 /\
    ~ In p (ports s) /\
    ports s' = (ports s ++ [p])%list.
Proof.
  intros Hrun.
  destruct (init_run D _ _ _ _ _ _ _ _ _ Hrun) as (_ & _ & _ & _ & Hp & _).
  exact Hp.
Qed.

Lemma init_allocates_port_witness :
  __init__ Lab.sample 3 0 "" "" "." "./Dockerfile" (Lab.initial 0%nat)
  = (Returned
       (Some (mkDaemon "./Dockerfile" "DCD1-2-3-4-5-6-"
                "pytest_DCD12-13-14-15-" "5001" "." "pytest_DCD28-29-30-31-")),
     snd (__init__ Lab.sample 3 0 "" "" "." "./Dockerfile"
            (Lab.initial 0%nat))) /\
  exists p : Z,
    "5001" = str (VInt p) /\
    5000 <= p <= 65535 /\
    ~ In p [] /\
    ports (snd (__init__ Lab.sample 3 0 "" "" "." "./Dockerfile"
                  (Lab.initial 0%nat))) = ([] ++ [p])%list.
Proof.
  assert (Hrun :
    __init__ Lab.sample 3 0 "" "" "." "./Dockerfile" (Lab.initial 0%nat)
    = (Returned
         (Some (mkDaemon "./Dockerfile" "DCD1-2-3-4-5-6-"
                  "pytest_DCD12-13-14-15-" "5001" "."
                  "pytest_DCD28-29-30-31-")),
       snd (__init__ Lab.sample 3 0 "" "" "." "./Dockerfile"
              (Lab.initial 0%nat)))).
  { vm_compute. reflexivity. }
  split; [exact Hrun |].
  exact (init_allocates_port _ _ _ _ _ _ _ _ _ Hrun).
Defined.

(** X19. Two daemons built one after the other with every parameter at its
    default share neither container name, image name, tag nor port. *)
Theorem daemons_share_nothing {E : Type}
  (D : engine E) (fuel1 fuel2 : nat) (s s1 s2 : hstate E) (d1 d2 : daemon) :
  DockerContainerDaemon D fuel1 s = (Returned (Some d1), s1) ->
  DockerContainerDaemon D fuel2 s1 = (Returned (Some d2), s2) ->
  _container_name d1 <> _container_name d2 /\
  _image_name d1 <> _image_name d2 /\
  _tag d1 <> _tag d2 /\
  get_port d1 <> get_port d2.
Proof.
  unfold DockerContainerDaemon. intros Hfirst Hsecond.
  destruct (init_run D _ _ _ _ _ _ _ _ _ Hfirst)
    as (_ & _ & Ht1 & Hi1 & Hp1 & Hc1).
  destruct (init_run D _ _ _ _ _ _ _ _ _ Hsecond)
    as (_ & _ & Ht2 & Hi2 & Hp2 & Hc2).
  cbn in Ht1, Ht2, Hi1, Hi2, Hp1, Hp2.
  destruct Ht1 as [_ Ht1]. destruct Ht2 as [Ht2 _].
  destruct Hi1 as (i1 & Hi1 & _ & Hil1). destruct Hi2 as (i2 & Hi2 & Hin2 & _).
  destruct Hp1 as (p1 & Hp1 & _ & _ & Hpl1).
  destruct Hp2 as (p2 & Hp2 & _ & Hpn2 & _).
  destruct Hc1 as (c1 & Hc1 & _ & Hcl1). destruct Hc2 as (c2 & Hc2 & Hcn2 & _).
  repeat split.
  - rewrite Hc1, Hc2. intros H. apply (append_inj_l "pytest_") in H. subst c2.
    apply Hcn2. rewrite Hcl1. apply in_or_app. right. now left.
  - rewrite Hi1, Hi2. intros H. apply (append_inj_l "pytest_") in H. subst i2.
    apply Hin2. rewrite Hil1. apply in_or_app. right. now left.
  - intros H. apply Ht2. rewrite <- H, Ht1. apply in_or_app. right. now left.
  - unfold get_port. rewrite Hp1, Hp2. intros H. apply str_int_inj in H.
    subst p2. apply Hpn2. rewrite Hpl1. apply in_or_app. right. now left.
Qed.

Lemma daemons_share_nothing_witness :
  DockerContainerDaemon Lab.sample 3 (Lab.initial 0%nat)
  = (Returned (Some Lab.first_daemon),
     snd (DockerContainerDaemon Lab.sample 3 (Lab.initial 0%nat))) /\
  DockerContainerDaemon Lab.sample 3
    (snd (DockerContainerDaemon Lab.sample 3 (Lab.initial 0%nat)))
  = (Returned (Some Lab.second_daemon),
     snd (DockerContainerDaemon Lab.sample 3
            (snd (DockerContainerDaemon Lab.sample 3 (Lab.initial 0%nat))))) /\
  (_container_name Lab.first_daemon <> _container_name Lab.second_daemon /\
   _image_name Lab.first_daemon <> _image_name Lab.second_daemon /\
   _tag Lab.first_daemon <> _tag Lab.second_daemon /\
   get_port Lab.first_daemon <> get_port Lab.second_daemon).
Proof.
  assert (Hfirst :
    DockerContainerDaemon Lab.sample 3 (Lab.initial 0%nat)
    = (Returned (Some Lab.first_daemon),
       snd (DockerContainerDaemon Lab.sample 3 (Lab.initial 0%nat)))).
  { vm_compute. reflexivity. }
  assert (Hsecond :
    DockerContainerDaemon Lab.sample 3
      (snd (DockerContainerDaemon Lab.sample 3 (Lab.initial 0%nat)))
    = (Returned (Some Lab.second_daemon),
       snd (DockerContainerDaemon Lab.sample 3
              (snd (DockerContainerDaemon Lab.sample 3
                      (Lab.initial 0%nat)))))).
  { vm_compute. reflexivity. }
  split; [exact Hfirst | split; [exact Hsecond |]].
  exact (daemons_share_nothing _ _ _ _ _ _ _ _ Hfirst Hsecond).
Defined.

(** ** [run], [terminate], [destroy] and [check_if_object_exists] *)

Lemma dict_get_set (k k' v : string) (d : dict) :
  dict_get k (dict_set k' v d) =
    if String.eqb k k' then Some v else dict_get k d.
Proof.
  induction d as [| [k1 v1] d IH]; simpl.
  - reflexivity.
  - destruct (String.eqb_spec k' k1) as [-> | Hne]; simpl.
    + destruct (String.eqb k k1); reflexivity.
    + rewrite IH.
      destruct (String.eqb_spec k k1) as [-> | Hne'];
        destruct (String.eqb_spec k1 k') as [<- | Hne'']; congruence.
Qed.

Lemma dict_get_absent (k : string) (d : dict) :
  ~ In k (map fst d) -> dict_get k d = None.
Proof.
  induction d as [| [k1 v1] d IH]; simpl; intros Hnot; [reflexivity |].
  destruct (String.eqb_spec k k1) as [-> | Hne]; [tauto |].
  apply IH. tauto.
Qed.

(** A key is looked up in [d | e] first in [e], then in [d]. *)
Lemma dict_get_union (k : string) (e : dict) :
  NoDup (map fst e) ->
  forall d : dict,
    dict_get k (dict_union d e) =
      match dict_get k e with
      | Some v => Some v
      | None => dict_get k d
      end.
Proof.
  unfold dict_union.
  induction e as [| [k1 v1] e IH]; intros Hnodup d; simpl; [reflexivity |].
  inversion Hnodup as [| ? ? Hnot Hrest]; subst.
  rewrite (IH Hrest), dict_get_set.
  destruct (String.eqb_spec k k1) as [-> | Hne].
  - now rewrite (dict_get_absent k1 e Hnot).
  - reflexivity.
Qed.

(** A handler that always returns leaves no exception of its class. *)
Lemma htry_catches {E A : Type} (body : hprog E A) (cls : string)
  (handler : exception -> hprog E A) (s : hstate E) :
  (forall (e : exception) (s1 : hstate E),
      exists (a : A) (s2 : hstate E), handler e s1 = (Returned a, s2)) ->
  match fst (htry body cls handler s) with
  | Returned _ => True
  | Raised e => isinstance e cls = false
  end.
Proof.
  intros Hhandler. unfold htry.
  destruct (body s) as [[a | e] s1]; simpl; [trivial |].
  destruct (isinstance e cls) eqn:He; simpl; [| exact He].
  destruct (Hhandler e s1) as (a & s2 & ->). exact I.
Qed.

(** X20. The environment [run] hands to the container is the caller's,
    with HOST set to 0.0.0.0 when the caller gives no HOST: a key of [env]
    keeps the caller's value, and no other key is added. *)
Theorem run_env_lookup (env : option dict) (k : string) :
  match env with
  | Some e => NoDup (map fst e)
  | None => True
  end ->
  dict_get k (run_env env) =
    match env with
    | Some e =>
        match dict_get k e with
        | Some v => Some v
        | None => if String.eqb k "HOST" then Some "0.0.0.0" else None
        end
    | None => if String.eqb k "HOST" then Some "0.0.0.0" else None
    end.
Proof.
  destruct env as [[| kv more] |]; intros Hnodup; try reflexivity.
  unfold run_env. now rewrite dict_get_union.
Qed.

Lemma run_env_lookup_witness :
  NoDup (map fst [("HOST", "whatever_host"); ("DEBUG", "1")]) /\
  dict_get "HOST" (run_env (Some [("HOST", "whatever_host"); ("DEBUG", "1")]))
    = Some "whatever_host".
Proof.
  assert (Hnodup : NoDup (map fst [("HOST", "whatever_host"); ("DEBUG", "1")])).
  { simpl. constructor.
    - simpl. intros [H | []]. discriminate.
    - constructor; [intros [] | constructor]. }
  split; [exact Hnodup |].
  exact (run_env_lookup (Some [("HOST", "whatever_host"); ("DEBUG", "1")])
           "HOST" Hnodup).
Defined.

(** X21. [run] lets no instance of [Exception] out.  When
    [containers.get], or [exec_run] on the container found, raises one, [run]
    logs "Error running command: " with the exception and answers [False];
    nothing else is done. *)
Theorem run_raises_no_exception {E : Type}
  (D : engine E) (self : daemon) (cmd : list string) (env : option dict)
  (s : hstate E) :
  match fst (run D self cmd env s) with
  | Returned _ => True
  | Raised e => isinstance e "Exception" = false
  end /\
  (forall (e : exception) (o1 : E),
      containers_get D (_container_name self) (outside s) = (Raised e, o1) ->
      isinstance e "Exception" = true ->
      run D self cmd env s =
        (Returned false,
         moved s o1
           [ContainersGet (_container_name self);
            LogError [Lit "Error running command: "; StrOf e]])) /\
  (forall (c : Docker.container) (e : exception) (o1 o2 : E),
      containers_get D (_container_name self) (outside s)
        = (Returned (Some c), o1) ->
      exec_run D c (String.concat " " cmd) (run_env env) o1
        = (Raised e, o2) ->
      isinstance e "Exception" = true ->
      run D self cmd env s =
        (Returned false,
         moved s o2
           [ContainersGet (_container_name self);
            ExecRun (Docker.name c) (String.concat " " cmd) (run_env env);
            LogError [Lit "Error running command: "; StrOf e]])).
Proof.
  split; [| split].
  - unfold run. apply htry_catches.
    intros e s1. unfold logger_error, hbind. rewrite emit_moved.
    eexists _, _. reflexivity.
  - intros e o1 Hget He.
    unfold run, htry, _docker_exec. unfold hbind at 1. rewrite ask_moved.
    rewrite Hget. cbn [fst snd]. rewrite He.
    unfold logger_error, hbind, hret. rewrite emit_moved, moved_moved.
    reflexivity.
  - intros c e o1 o2 Hget Hexec He.
    unfold run, htry, _docker_exec. unfold hbind at 1. rewrite ask_moved.
    rewrite Hget. cbn [fst snd]. unfold hbind at 1. rewrite ask_moved.
    cbn [outside moved]. rewrite Hexec. cbn [fst snd]. rewrite He.
    unfold logger_error, hbind, hret.
    rewrite emit_moved, !moved_moved. reflexivity.
Qed.

Lemma run_raises_no_exception_witness :
  containers_get (Lab.bench Lab.absent 0 (Raised Lab.not_found) [])
    (_container_name Lab.web) (outside (Lab.initial 0%nat))
  = (Raised Lab.not_found, 1%nat) /\
  isinstance Lab.not_found "Exception" = true /\
  run (Lab.bench Lab.absent 0 (Raised Lab.not_found) []) Lab.web
    ["python"; "docker_healthcheck.py"] None (Lab.initial 0%nat)
  = (Returned false,
     moved (Lab.initial 0%nat) 1%nat
       [ContainersGet "pytest_web";
        LogError [Lit "Error running command: "; StrOf Lab.not_found]]).
Proof.
  split; [reflexivity | split; [reflexivity |]].
  apply (proj1 (proj2 (run_raises_no_exception
                         (Lab.bench Lab.absent 0 (Raised Lab.not_found) [])
                         Lab.web ["python"; "docker_healthcheck.py"] None
                         (Lab.initial 0%nat))));
    reflexivity.
Defined.

(** X22. When the container is found and the command has been executed,
    [run] answers [True] exactly when the exit code is 0.  The command is
    passed as its words joined by single spaces, with the environment of
    [run_env]. *)
Theorem run_reports_exit_code {E : Type}
  (D : engine E) (self : daemon) (cmd : list string) (env : option dict)
  (s : hstate E) (c : Docker.container) (r : Docker.exec_result) (o1 o2 : E) :
  containers_get D (_container_name self) (outside s)
    = (Returned (Some c), o1) ->
  exec_run D c (String.concat " " cmd) (run_env env) o1
    = (Returned (Some r), o2) ->
  exists new : list hevent,
    run D self cmd env s =
      (Returned (Docker.exit_code r =? 0),
       moved s o2
         ([ContainersGet (_container_name self);
           ExecRun (Docker.name c) (String.concat " " cmd) (run_env env)]
            ++ new)) /\
    count is_sleep new = 0%nat.
Proof.
  intros Hget Hexec.
  unfold run, htry, _docker_exec. unfold hbind at 1. rewrite ask_moved.
  rewrite Hget. cbn [fst snd]. unfold hbind at 1. rewrite ask_moved.
  cbn [outside moved]. rewrite Hexec. cbn [fst snd].
  rewrite moved_moved.
  destruct (Docker.exit_code r =? 0).
  - unfold hret. exists []. now split.
  - unfold logger_error, hbind. rewrite emit_moved, moved_moved.
    unfold hret. eexists [_]. now split.
Qed.

Lemma run_reports_exit_code_witness :
  containers_get (Lab.bench Lab.running 1 (Raised Lab.not_found) [])
    (_container_name Lab.web) (outside (Lab.initial 0%nat))
  = (Returned (Some (Docker.mkContainer "pytest_web" "running")), 1%nat) /\
  exec_run (Lab.bench Lab.running 1 (Raised Lab.not_found) [])
    (Docker.mkContainer "pytest_web" "running")
    (String.concat " " ["python"; "docker_healthcheck.py"])
    (run_env (Some [("HOST", "whatever_host")])) 1%nat
  = (Returned (Some (Docker.mkExecResult 1 "")), 2%nat) /\
  exists new : list hevent,
    run (Lab.bench Lab.running 1 (Raised Lab.not_found) []) Lab.web
      ["python"; "docker_healthcheck.py"]
      (Some [("HOST", "whatever_host")]) (Lab.initial 0%nat)
    = (Returned (1 =? 0),
       moved (Lab.initial 0%nat) 2%nat
         ([ContainersGet "pytest_web";
           ExecRun "pytest_web" "python docker_healthcheck.py"
             [("HOST", "whatever_host")]] ++ new)) /\
    count is_sleep new = 0%nat.
Proof.
  split; [reflexivity | split; [reflexivity |]].
  apply (run_reports_exit_code
           (Lab.bench Lab.running 1 (Raised Lab.not_found) []) Lab.web
           ["python"; "docker_healthcheck.py"]
           (Some [("HOST", "whatever_host")]) (Lab.initial 0%nat)
           (Docker.mkContainer "pytest_web" "running")
           (Docker.mkExecResult 1 "") 1%nat 2%nat); reflexivity.
Defined.

Section Teardown.

Context {E : Type}.
Variable D : engine E.
Variable self : daemon.

Lemma terminate_run (s : hstate E) :
  exists (r : result bool) (o' : E) (new : list hevent),
    terminate D self s = (r, moved s o' new) /\
    (count is_container_stop new <= 1)%nat /\
    count is_container_remove new = 0%nat /\
    count is_image_remove new = 0%nat /\
    match r with
    | Returned true => count is_container_stop new = 1%nat
    | Returned false => True
    | Raised e => isinstance e Docker.NotFound = false
    end.
Proof.
  unfold terminate, htry. unfold hbind at 1. rewrite ask_moved.
  destruct (containers_get D (_container_name self) (outside s))
    as [[[c |] | e] o1]; cbn [fst snd].
  - unfold hbind at 1. rewrite ask_moved. cbn [outside moved].
    destruct (container_stop D c o1) as [[[] | e] o2]; cbn [fst snd];
      rewrite moved_moved.
    + unfold hret. eexists _, o2, _. split; [reflexivity |].
      now repeat split.
    + destruct (isinstance e Docker.NotFound) eqn:He.
      * unfold hret. eexists _, o2, _. split; [reflexivity |].
        unfold count; simpl. repeat split; lia.
      * eexists _, o2, _. split; [reflexivity |].
        unfold count; simpl. repeat split; trivial; lia.
  - unfold hret. eexists _, o1, _. split; [reflexivity |].
    unfold count; simpl. repeat split; lia.
  - destruct (isinstance e Docker.NotFound) eqn:He.
    + unfold hret. eexists _, o1, _. split; [reflexivity |].
      unfold count; simpl. repeat split; lia.
    + eexists _, o1, _. split; [reflexivity |].
      unfold count; simpl. repeat split; trivial; lia.
Qed.


End Teardown.

(** X23. [terminate] lets no [NotFound] out and stops the container at most
    once; it answers [True] only when it has called [stop], and it removes
    nothing. *)
Theorem terminate_stops_at_most_once {E : Type}
  (D : engine E) (self : daemon) (s : hstate E) :
  exists (r : result bool) (o' : E) (new : list hevent),
    terminate D self s = (r, moved s o' new) /\
    (count is_container_stop new <= 1)%nat /\
    count is_container_remove new = 0%nat /\
    count is_image_remove new = 0%nat /\
    match r with
    | Returned true => count is_container_stop new = 1%nat
    | Returned false => True
    | Raised e => isinstance e Docker.NotFound = false
    end.
Proof. apply terminate_run. Qed.


(** X25. [check_if_object_exists] lets no [APIError] out, a [NotFound]
    included: it answers [True], [None] or [False], and leaves the class
    attributes alone. *)
Theorem check_if_object_exists_hides_api_errors {E : Type}
  (D : engine E) (name : string) (s : hstate E) :
  exists (r : result value) (o' : E) (new : list hevent),
    check_if_object_exists D name s = (r, moved s o' new) /\
    match r with
    | Returned v => v = VBool true \/ v = VNone \/ v = VBool false
    | Raised e => isinstance e Docker.APIError = false
    end.
Proof. apply check_if_object_exists_run. Qed.

(** ** The script and the call, once more *)




(** X28. The calls [check_health] accepts are exactly those with no
    argument, with one positional argument, or with the keyword [port] alone;
    every other call raises [TypeError] while its arguments are bound. *)
Theorem check_health_accepts_one_port
  (d : value) (args : list value) (kwargs : list (string * value)) :
  (exists port : value, bind_arguments d args kwargs = Returned port) <->
  (args = [] /\ kwargs = []) \/
  (exists port : value, args = [port] /\ kwargs = []) \/
  (exists port : value, args = [] /\ kwargs = [("port", port)]).
Proof.
  split.
  - intros (port & Hbind). unfold bind_arguments in Hbind.
    destruct args as [| a [| a' args]]; [simpl in Hbind | simpl in Hbind |].
    + destruct kwargs as [| [k v] kwargs]; [now left |].
      right; right. simpl in Hbind.
      destruct (String.eqb_spec k "port") as [-> | Hne]; [| discriminate].
      destruct kwargs as [| [k' v'] kwargs]; [now exists v |].
      simpl in Hbind. destruct (String.eqb k' "port"); discriminate.
    + right; left. exists a. split; [reflexivity |].
      destruct kwargs as [| [k v] kwargs]; [reflexivity |].
      simpl in Hbind.
      destruct (String.eqb k "port"); simpl in Hbind; discriminate Hbind.
    + cbn [hd_error] in Hbind.
      destruct (bind_keywords (Some a) kwargs); [| discriminate Hbind].
      destruct (1 <? Z.of_nat (length (a :: a' :: args))) eqn:Hlen;
        [discriminate Hbind |].
      apply Z.ltb_ge in Hlen. simpl length in Hlen. lia.
  - intros [[-> ->] | [(port & -> & ->) | (port & -> & ->)]].
    + now exists d.
    + now exists port.
    + now exists port.
Qed.

Example check_health_refuses_port_twice :
  forall d w,
    call_check_health d [VInt 5000] [("port", VInt 5000)] w
    = ([], Raised (TypeError
             "check_health() got multiple values for argument 'port'")).
Proof. reflexivity. Qed.
